(** * git-town: the resume handler, the append planner and the ship planner

    A shallow embedding of
    - [src/validate/handle_unfinished_state.go] (package [validate], v11),
    - [src/vm/opcode/create_tracking_branch.go] (package [opcode], v11),
    - the append command (package [cmd], v11), and
    - [src/cmd/ship.go] (package [cmd], v7),
    with the properties the specification states about them.

    Go functions that touch the disk, the user or the working repository are
    written in a monad that passes the [World] along and collects one
    [Event] per effect, so that "nothing ran" and "the prompt came first"
    are statements about the events of a call. *)

From Stdlib Require Import ZArith Lia.
From stdpp Require Import base strings list gmap.

Open Scope string_scope.
Open Scope list_scope.

(** Go's [error] values.  The constructors are the messages the embedded
    functions format themselves; [ExternalError] stands for an error handed
    back by a collaborator, [NilDereference] for the runtime error of a read
    through a [nil] pointer. *)
Inductive Error : Type :=
  | RunstateLoadProblem (cause : Error)
  | DialogUnexpectedResponse (response : string)
  | ContinueUnresolvedConflicts
  | BranchAlreadyExistsLocally (branch : string)
  | BranchAlreadyExistsRemotely (branch : string)
  | BranchDoesntExist (branch : string)
  | UncommittedChanges
  | NoBranchNamed (branch : string)
  | NotAFeatureBranch (branch : string)
  | ShipOldestAncestorFirst (ancestors : list string) (oldest : string)
  | ExternalError (msg : string)
  | NilDereference.

(** A Go result pair [(value, err)] whose [value] is read only when
    [err == nil]. *)
Inductive Result (A : Type) : Type :=
  | Ok (a : A)
  | Failed (e : Error).
Arguments Ok {A} a.
Arguments Failed {A} e.

(** Go's [err != nil]. *)
Definition notNil {A} (err : option A) : bool :=
  match err with
  | Some _ => true
  | None => false
  end.

(** ** Package [gitdomain] *)

Module gitdomain.

(** Modelled from the spec: the types of package [gitdomain], which is not
    among the sources; names are strings, and the records hold the fields
    the embedded functions read. *)
Definition LocalBranchName := string.
Definition RemoteBranchName := string.
Definition LocalBranchNames := list LocalBranchName.
Definition RepoRootDir := string.
Definition StashSize := nat.
Definition Remotes := list string.

Definition OriginRemote : string := "origin".

Record BranchInfo : Type := {
  LocalName : LocalBranchName;
  RemoteName : RemoteBranchName
}.
Definition BranchInfos := list BranchInfo.

Record BranchesStatus : Type := {
  Active : LocalBranchName;
  Branches : BranchInfos
}.

Record RepoStatus : Type := {
  Conflicts : bool;
  OpenChanges : bool
}.

(** Modelled from the spec: [Remotes.HasOrigin] ("remote presence"); the
    accessors of package [gitdomain] are not among the sources. *)
Definition HasOrigin (self : Remotes) : bool :=
  bool_decide (OriginRemote ∈ self).

(** Modelled from the spec: [LocalBranchName.TrackingBranch], the name of
    the "remote counterpart" of a branch at the origin. *)
Definition TrackingBranch (self : LocalBranchName) : RemoteBranchName :=
  (OriginRemote ++ "/" ++ self)%string.

(** Modelled from the spec: [BranchInfos.HasLocalBranch] ("branch already
    exists"), some branch has this local name. *)
Definition HasLocalBranch (self : BranchInfos) (name : LocalBranchName) : bool :=
  existsb (fun bi => String.eqb (LocalName bi) name) self.

(** Modelled from the spec: [BranchInfos.HasMatchingTrackingBranchFor]
    ("branch already exists"), some branch has the tracking branch of this
    name as its remote name. *)
Definition HasMatchingTrackingBranchFor (self : BranchInfos) (name : LocalBranchName) : bool :=
  existsb (fun bi => String.eqb (RemoteName bi) (TrackingBranch name)) self.

(** Modelled from the spec: [BranchInfos.FindByLocalName], the first branch
    with this local name. *)
Definition FindByLocalName (self : BranchInfos) (name : LocalBranchName) : option BranchInfo :=
  find (fun bi => String.eqb (LocalName bi) name) self.

(** Modelled from the spec: [BranchInfos.Select] (branches "planned in
    root-to-leaf order": the order of [names] is kept); a name without a
    branch is an error, handed back next to the branches found before it. *)
Fixpoint Select (self : BranchInfos) (names : LocalBranchNames) : BranchInfos * option Error :=
  match names with
  | [] => ([], None)
  | name :: rest =>
      match FindByLocalName self name with
      | None => ([], Some (BranchDoesntExist name))
      | Some bi => let (found, err) := Select self rest in (bi :: found, err)
      end
  end.

End gitdomain.

(** ** Package [configdomain] *)

Module configdomain.

(** Modelled from the spec: the types of package [configdomain], which is
    not among the sources; the records hold the fields the embedded
    functions read, the lineage is Go's map from a branch to its parent. *)
Definition PushHook := bool.
Definition BranchTypes := list gitdomain.LocalBranchName.
Abbreviation Lineage := (gmap gitdomain.LocalBranchName gitdomain.LocalBranchName).

Record FullConfig : Type := {
  Lineage_ : Lineage;
  MainBranch : gitdomain.LocalBranchName;
  NewBranchPush : bool;
  Offline : bool
}.

Record Branches : Type := {
  All : gitdomain.BranchInfos;
  Initial : gitdomain.LocalBranchName;
  Types : BranchTypes
}.

(** Modelled from the spec: [FullConfig.ShouldNewBranchPush] ("whether
    new branches auto-push"); the methods of package [configdomain] are not
    among the sources. *)
Definition ShouldNewBranchPush (self : FullConfig) : bool := NewBranchPush self.

(** Modelled from the spec: [FullConfig.IsOnline] ("online/offline
    flag"). *)
Definition IsOnline (self : FullConfig) : bool := negb (Offline self).

(** Modelled from the spec: the lineage maps each branch to its immediate
    parent; the ancestors of a branch are planned "in root-to-leaf order
    (ancestors before descendants)".  The walk up follows at most as many
    parent links as the lineage has entries. *)
Fixpoint ancestorsUpTo (fuel : nat) (self : Lineage) (branch : gitdomain.LocalBranchName)
    (result : gitdomain.LocalBranchNames) : gitdomain.LocalBranchNames :=
  match fuel with
  | O => result
  | S fuel' =>
      match self !! branch with
      | None => result
      | Some parent => ancestorsUpTo fuel' self parent (parent :: result)
      end
  end.

(** Modelled from the spec: [Lineage.Ancestors], the ancestors of a branch,
    the root first. *)
Definition Ancestors (self : Lineage) (branch : gitdomain.LocalBranchName) : gitdomain.LocalBranchNames :=
  ancestorsUpTo (size self) self branch [].

(** Modelled from the spec: [Lineage.BranchAndAncestors], the ancestors in
    root-to-leaf order and then the branch itself. *)
Definition BranchAndAncestors (self : Lineage) (branch : gitdomain.LocalBranchName)
    : gitdomain.LocalBranchNames :=
  Ancestors self branch ++ [branch].

End configdomain.

Module hostingdomain.
(** Modelled from the spec: the hosting connector, which these sources only
    pass along; [None] is Go's [nil]. *)
Definition Connector := option string.
End hostingdomain.

Module undoconfig.
(** Modelled from the spec: the snapshot of the configuration, which these
    sources only pass along. *)
Definition ConfigSnapshot := list (string * string).
End undoconfig.

(** ** Packages [opcode] and [program] *)

Module opcode.

(** The struct whose methods are among the sources. *)
Record CreateTrackingBranch : Type := {
  Branch : gitdomain.LocalBranchName
}.

(** [shared.Opcode]: the opcode structs these sources construct, as one
    variant type.  [OfCreateTrackingBranch] wraps the struct above;
    [Planned] stands for the opcodes appended by planners that live
    elsewhere ([sync.BranchProgram], [cmdhelpers.Wrap]). *)
Inductive Opcode : Type :=
  | CreateBranchExistingParent (Ancestors : gitdomain.LocalBranchNames)
                               (Branch : gitdomain.LocalBranchName)
  | SetExistingParent (Branch : gitdomain.LocalBranchName)
                      (Ancestors : gitdomain.LocalBranchNames)
  | Checkout (Branch : gitdomain.LocalBranchName)
  | OfCreateTrackingBranch (self : CreateTrackingBranch)
  | Planned (kind : string) (operands : list string).

#[global] Instance CreateTrackingBranch_eq_dec : EqDecision CreateTrackingBranch.
Proof. solve_decision. Defined.
#[global] Instance Opcode_eq_dec : EqDecision Opcode.
Proof. solve_decision. Defined.

(** [func (self *CreateTrackingBranch) CreateContinueProgram() []shared.Opcode] *)
Definition CreateContinueProgram (self : CreateTrackingBranch) : list Opcode :=
  [OfCreateTrackingBranch self].

(** Modelled from the spec: the default continuation of an opcode
    ("default: re-run itself"); the shared opcode methods are not among
    the sources. *)
Definition defaultContinuation (op : Opcode) : list Opcode := [op].

End opcode.

Module program.
Definition Program := list opcode.Opcode.
(** [prog.Add(op)] appends one opcode. *)
Definition Add (prog : Program) (op : opcode.Opcode) : Program := prog ++ [op].
End program.

(** ** Package [runstate] *)

Module runstate.

Record UnfinishedRunStateDetails : Type := {
  CanSkip : bool;
  EndBranch : gitdomain.LocalBranchName;
  EndTime : Z
}.

Record RunState : Type := {
  Command : string;
  DryRun : bool;
  InitialActiveBranch : gitdomain.LocalBranchName;
  RunProgram : program.Program;
  UnfinishedDetails : option UnfinishedRunStateDetails
}.

(** Modelled from the spec: [RunState.IsUnfinished] ("unfinished" iff
    [unfinished_details] is present); package [runstate] is not among the
    sources. *)
Definition IsUnfinished (self : RunState) : bool :=
  match UnfinishedDetails self with Some _ => true | None => false end.

End runstate.

(** ** The world the commands act on *)

(** What one file of the run-state store holds. *)
Inductive StateFile : Type :=
  | Corrupt
  | Stored (rs : runstate.RunState).

(** Effects, in the order they happen.  [EvExecute] marks a call of
    [interpreter.Execute]; [EvRun] and [EvSave] are what an interpreter does
    inside such a call. *)
Inductive Event : Type :=
  | EvLoad (root : gitdomain.RepoRootDir)
  | EvAsk (command : string) (endBranch : gitdomain.LocalBranchName) (endTime : Z) (canSkip : bool)
  | EvRepoStatus
  | EvDelete (root : gitdomain.RepoRootDir)
  | EvExecute (root : gitdomain.RepoRootDir) (rs : runstate.RunState)
  | EvRun (op : opcode.Opcode)
  | EvSave (root : gitdomain.RepoRootDir) (rs : runstate.RunState)
  | EvQuery (what : string).

Record World : Type := {
  (** the persisted run state, one file per repository root *)
  files : gmap gitdomain.RepoRootDir StateFile;
  (** a failure of the storage, reported by [statefile.Delete] *)
  storageFault : option Error;
  (** what [Backend.RepoStatus()] answers *)
  repoStatus : Result gitdomain.RepoStatus;
  (** what [Backend.Remotes()] answers *)
  remotes : Result gitdomain.Remotes;
  (** what [Backend.PreviouslyCheckedOutBranch()] answers *)
  previouslyCheckedOut : gitdomain.LocalBranchName
}.

Definition withFiles (fs : gmap gitdomain.RepoRootDir StateFile) (w : World) : World :=
  {| files := fs; storageFault := storageFault w; repoStatus := repoStatus w;
     remotes := remotes w; previouslyCheckedOut := previouslyCheckedOut w |}.

(** What a call leaves behind: its Go result, the world after it, and the
    effects it performed, oldest first. *)
Record Outcome (A : Type) : Type := {
  value : A;
  after : World;
  events : list Event
}.
Arguments value {A} _.
Arguments after {A} _.
Arguments events {A} _.

(** The monad of the effectful functions: state passing over [World], with
    the effects accumulated in call order. *)
Definition M (A : Type) : Type := World -> Outcome A.

Definition ret {A} (a : A) : M A :=
  fun w => {| value := a; after := w; events := [] |}.

Definition bind {A B} (m : M A) (k : A -> M B) : M B :=
  fun w =>
    match m w with
    | {| value := a; after := w1; events := first |} =>
        match k a w1 with
        | {| value := b; after := w2; events := next |} =>
            {| value := b; after := w2; events := first ++ next |}
        end
    end.

Definition emit (ev : Event) : M unit :=
  fun w => {| value := tt; after := w; events := [ev] |}.

Definition getWorld : M World :=
  fun w => {| value := w; after := w; events := [] |}.

Definition putWorld (w' : World) : M unit :=
  fun _ => {| value := tt; after := w'; events := [] |}.

#[global] Instance M_ret : MRet M := @ret.
#[global] Instance M_bind : MBind M := fun A B k m => bind m k.

(** ** Package [statefile] *)

Module statefile.

(** Modelled from the spec: [statefile.Load] ("load returns absent
    distinctly from present"; a corrupt file is an error); package
    [statefile] is not among the sources. *)
Definition Load (root : gitdomain.RepoRootDir) : M (Result (option runstate.RunState)) :=
  emit (EvLoad root);;
  w ← getWorld;
  mret (match files w !! root with
        | None => Ok None
        | Some Corrupt => Failed (ExternalError "cannot parse the persisted run state")
        | Some (Stored rs) => Ok (Some rs)
        end).

(** Modelled from the spec: [statefile.Delete] ("delete"); it removes the
    file of the repository root, or hands back the storage's failure and
    removes nothing. *)
Definition Delete (root : gitdomain.RepoRootDir) : M (option Error) :=
  emit (EvDelete root);;
  w ← getWorld;
  match storageFault w with
  | Some e => mret (Some e)
  | None => putWorld (withFiles (delete root (files w)) w);; mret None
  end.

End statefile.

(** ** Package [dialog] *)

Module dialog.

(** Modelled from the spec: [dialog.Response], a value the resume prompt
    returns; package [dialog] is not among the sources.  The type is open:
    any name makes a response. *)
Record Response : Type := { name : string }.

#[global] Instance Response_eq_dec : EqDecision Response.
Proof. solve_decision. Defined.

(** Modelled from the spec: the five answers of the resume prompt
    ("returns one of Continue, Skip, Undo, Discard, Quit"), five distinct
    values. *)
Definition ResponseContinue : Response := {| name := "continue" |}.
Definition ResponseDiscard : Response := {| name := "discard" |}.
Definition ResponseQuit : Response := {| name := "quit" |}.
Definition ResponseSkip : Response := {| name := "skip" |}.
Definition ResponseUndo : Response := {| name := "undo" |}.

(** The answers the spec lists. *)
Definition known : list Response :=
  [ResponseContinue; ResponseSkip; ResponseUndo; ResponseDiscard; ResponseQuit].

End dialog.

(** ** Packages [git] and [interpreter] *)

Module git.

(** Modelled from the spec: [git.ProdRunner], which is not among the
    sources: the configuration it carries; what its [Backend] answers is
    read from the [World]. *)
Record ProdRunner : Type := {
  FullConfig : configdomain.FullConfig
}.

(** Modelled from the spec: [Backend.RepoStatus()], a read of the working
    repository ("the external tool reports unresolved state"). *)
Definition RepoStatus : M (Result gitdomain.RepoStatus) :=
  emit EvRepoStatus;; w ← getWorld; mret (repoStatus w).

(** Modelled from the spec: [Backend.Remotes()], a read of the working
    repository ("remote presence"). *)
Definition Remotes : M (Result gitdomain.Remotes) :=
  emit (EvQuery "remotes");; w ← getWorld; mret (remotes w).

(** Modelled from the spec: [Backend.PreviouslyCheckedOutBranch()], a read
    of the working repository ("the previously checked-out branch"). *)
Definition PreviouslyCheckedOutBranch : M gitdomain.LocalBranchName :=
  emit (EvQuery "previous branch");; w ← getWorld; mret (previouslyCheckedOut w).

End git.

Module interpreter.

(** [interpreter.ExecuteArgs], with the fields that the struct literals of
    the sources set. *)
Record ExecuteArgs : Type := {
  Connector : hostingdomain.Connector;
  FullConfig : configdomain.FullConfig;
  InitialBranchesSnapshot : gitdomain.BranchesStatus;
  InitialConfigSnapshot : undoconfig.ConfigSnapshot;
  InitialStashSnapshot : gitdomain.StashSize;
  RootDir : gitdomain.RepoRootDir;
  Run : git.ProdRunner;
  RunState : runstate.RunState;
  Verbose : bool
}.

End interpreter.

Module cmdhelpers.

(** [cmdhelpers.WrapOptions], with the fields that [appendProgram] sets. *)
Record WrapOptions : Type := {
  DryRun : bool;
  RunInGitRoot : bool;
  StashOpenChanges : bool;
  PreviousBranchCandidates : gitdomain.LocalBranchNames
}.

End cmdhelpers.

Module execute.

(** [execute.OpenRepoResult], with the fields that [executeAppend] and
    [determineAppendConfig] read. *)
Record OpenRepoResult : Type := {
  Runner : git.ProdRunner;
  RootDir : gitdomain.RepoRootDir;
  ConfigSnapshot : undoconfig.ConfigSnapshot
}.

(** What [execute.LoadBranches] hands back, in Go's order. *)
Record LoadBranchesResult : Type := {
  branches : configdomain.Branches;
  branchesSnapshot : gitdomain.BranchesStatus;
  stashSnapshot : gitdomain.StashSize;
  exit : bool;
  err : option Error
}.

(** Modelled from the spec: [execute.FailureCollector], which the append
    command uses to gather pre-flight errors ("validation errors
    (pre-flight)"); it is not among the sources.  The collector is its
    [Err] field, and it keeps the first error it is given. *)
Definition FailureCollector := option Error.

(** Modelled from the spec: [fc.Check(err)], which keeps the first error. *)
Definition Check (self : FailureCollector) (err : option Error) : FailureCollector :=
  match self with
  | Some _ => self
  | None => err
  end.

(** Modelled from the spec: [fc.Fail(format, args)], which registers a new
    validation error. *)
Definition Fail (self : FailureCollector) (e : Error) : FailureCollector :=
  Check self (Some e).

(** Modelled from the spec: [fc.Remotes(value, err)] registers the error
    and passes the value on (Go's zero value when the call failed). *)
Definition Remotes (self : FailureCollector) (r : Result gitdomain.Remotes)
    : gitdomain.Remotes * FailureCollector :=
  match r with
  | Ok v => (v, Check self None)
  | Failed e => ([], Check self (Some e))
  end.

(** Modelled from the spec: [fc.RepoStatus(value, err)], likewise. *)
Definition RepoStatus (self : FailureCollector) (r : Result gitdomain.RepoStatus)
    : gitdomain.RepoStatus * FailureCollector :=
  match r with
  | Ok v => (v, Check self None)
  | Failed e => ({| gitdomain.Conflicts := false; gitdomain.OpenChanges := false |},
                 Check self (Some e))
  end.

(** Modelled from the spec: [fc.BranchesSyncStatus(value, err)],
    likewise. *)
Definition BranchesSyncStatus (self : FailureCollector)
    (r : gitdomain.BranchInfos * option Error) : gitdomain.BranchInfos * FailureCollector :=
  (r.1, Check self r.2).

End execute.

(** ** The collaborators that are not among the sources

    Each field is a function of this repository whose body is elsewhere; the
    embedded functions call them, and the theorems hold for every choice. *)
Record Collaborators : Type := {
  (** [interpreter.Execute(args)] *)
  interpreter_Execute : interpreter.ExecuteArgs -> M (option Error);
  (** [dialog.AskHowToHandleUnfinishedRunState(command, endBranch, endTime, canSkip)]:
      the user's answer *)
  dialog_AskHowToHandleUnfinishedRunState :
    string -> gitdomain.LocalBranchName -> Z -> bool -> Result dialog.Response;
  (** [runState.CreateAbortRunState()] and [runState.CreateSkipRunState()] *)
  runstate_CreateAbortRunState : runstate.RunState -> runstate.RunState;
  runstate_CreateSkipRunState : runstate.RunState -> runstate.RunState;
  (** [execute.OpenRepo(args)], its arguments in the order of the struct:
      Verbose, DryRun, OmitBranchNames, PrintCommands, ValidateIsOnline,
      ValidateGitRepo *)
  execute_OpenRepo : bool -> bool -> bool -> bool -> bool -> bool -> M (Result execute.OpenRepoResult);
  (** [execute.LoadBranches(args)]: FullConfig, Repo, Verbose, Fetch,
      HandleUnfinishedState, ValidateIsConfigured, ValidateNoOpenChanges *)
  execute_LoadBranches :
    configdomain.FullConfig -> execute.OpenRepoResult -> bool -> bool -> bool -> bool -> bool ->
    M execute.LoadBranchesResult;
  (** [execute.EnsureKnownBranchAncestry(branch, args)]: FullConfig,
      AllBranches, BranchTypes, DefaultBranch *)
  execute_EnsureKnownBranchAncestry :
    gitdomain.LocalBranchName -> configdomain.FullConfig -> gitdomain.BranchInfos ->
    configdomain.BranchTypes -> gitdomain.LocalBranchName ->
    M (configdomain.BranchTypes * configdomain.Lineage * option Error);
  (** [sync.BranchProgram(branch, args)]: FullConfig, BranchInfos,
      BranchTypes, Remotes, PushBranch; [args.Program] points at the program
      it extends, here the last argument and the result *)
  sync_BranchProgram :
    gitdomain.BranchInfo -> configdomain.FullConfig -> gitdomain.BranchInfos ->
    configdomain.BranchTypes -> gitdomain.Remotes -> bool -> program.Program -> program.Program;
  (** [cmdhelpers.Wrap(&prog, options)] *)
  cmdhelpers_Wrap : program.Program -> cmdhelpers.WrapOptions -> program.Program
}.

(** [interpreter.Execute(args)] as the embedded functions call it: the call
    goes on record, then the interpreter does its work. *)
Definition Execute (ext : Collaborators) (a : interpreter.ExecuteArgs) : M (option Error) :=
  emit (EvExecute (interpreter.RootDir a) (interpreter.RunState a));;
  interpreter_Execute ext a.

(** ** Package [validate]: [handle_unfinished_state.go] *)

Module validate.

Record UnfinishedStateArgs : Type := {
  Connector : hostingdomain.Connector;
  Verboe : bool;
  Lineage : configdomain.Lineage;
  InitialBranchesSnapshot : gitdomain.BranchesStatus;
  InitialConfigSnapshot : undoconfig.ConfigSnapshot;
  InitialStashSnapshot : gitdomain.StashSize;
  PushHook : configdomain.PushHook;
  RootDir : gitdomain.RepoRootDir;
  Run : git.ProdRunner
}.

Section Handler.
Context (ext : Collaborators).

(** The [interpreter.ExecuteArgs] literal the three resuming functions
    build; they differ in the run state only. *)
Definition executeArgs (runState : runstate.RunState) (args : UnfinishedStateArgs)
    : interpreter.ExecuteArgs :=
  {| interpreter.FullConfig := git.FullConfig (Run args);
     interpreter.Connector := Connector args;
     interpreter.Verbose := Verboe args;
     interpreter.InitialBranchesSnapshot := InitialBranchesSnapshot args;
     interpreter.InitialConfigSnapshot := InitialConfigSnapshot args;
     interpreter.InitialStashSnapshot := InitialStashSnapshot args;
     interpreter.RootDir := RootDir args;
     interpreter.Run := Run args;
     interpreter.RunState := runState |}.

Definition abortRunstate (runState : runstate.RunState) (args : UnfinishedStateArgs)
    : M (bool * option Error) :=
  let abortRunState := runstate_CreateAbortRunState ext runState in
  err ← Execute ext (executeArgs abortRunState args);
  mret (true, err).

Definition continueRunstate (runState : runstate.RunState) (args : UnfinishedStateArgs)
    : M (bool * option Error) :=
  repoStatus ← git.RepoStatus;
  match repoStatus with
  | Failed err => mret (false, Some err)
  | Ok repoStatus =>
      if gitdomain.Conflicts repoStatus
      then mret (false, Some ContinueUnresolvedConflicts)
      else err ← Execute ext (executeArgs runState args); mret (true, err)
  end.

Definition discardRunstate (rootDir : gitdomain.RepoRootDir) : M (bool * option Error) :=
  err ← statefile.Delete rootDir;
  mret (false, err).

Definition skipRunstate (runState : runstate.RunState) (args : UnfinishedStateArgs)
    : M (bool * option Error) :=
  let skipRunState := runstate_CreateSkipRunState ext runState in
  err ← Execute ext (executeArgs skipRunState args);
  mret (true, err).

(** The [switch response] of [HandleUnfinishedState]; Go tries the
    cases from the top. *)
Definition switchResponse (response : dialog.Response) (runState : runstate.RunState)
    (args : UnfinishedStateArgs) : M (bool * option Error) :=
  if decide (response = dialog.ResponseDiscard) then discardRunstate (RootDir args)
  else if decide (response = dialog.ResponseContinue) then continueRunstate runState args
  else if decide (response = dialog.ResponseUndo) then abortRunstate runState args
  else if decide (response = dialog.ResponseSkip) then skipRunstate runState args
  else if decide (response = dialog.ResponseQuit) then mret (true, None)
  else mret (false, Some (DialogUnexpectedResponse (dialog.name response))).

(** The record of the question asked for a halted run state, and the
    user's answer to it. *)
Definition promptFor (runState : runstate.RunState)
    (details : runstate.UnfinishedRunStateDetails) : Event :=
  EvAsk (runstate.Command runState) (runstate.EndBranch details)
        (runstate.EndTime details) (runstate.CanSkip details).

Definition answerTo (runState : runstate.RunState)
    (details : runstate.UnfinishedRunStateDetails) : Result dialog.Response :=
  dialog_AskHowToHandleUnfinishedRunState ext
    (runstate.Command runState) (runstate.EndBranch details)
    (runstate.EndTime details) (runstate.CanSkip details).

(** The prompt, with the question on record. *)
Definition AskHowToHandleUnfinishedRunState (command : string)
    (endBranch : gitdomain.LocalBranchName) (endTime : Z) (canSkip : bool)
    : M (Result dialog.Response) :=
  emit (EvAsk command endBranch endTime canSkip);;
  mret (dialog_AskHowToHandleUnfinishedRunState ext command endBranch endTime canSkip).

(** [HandleUnfinishedState] checks for unfinished state on disk, handles
    it, and signals whether to continue execution of the originally
    intended steps.  The result is Go's pair [(quit, err)].  The reads of
    [runState.UnfinishedDetails.EndBranch] and its neighbours go through the
    pointer [UnfinishedDetails], which past [IsUnfinished] is never [nil]. *)
Definition HandleUnfinishedState (args : UnfinishedStateArgs) : M (bool * option Error) :=
  loaded ← statefile.Load (RootDir args);
  match loaded with
  | Failed err => mret (false, Some (RunstateLoadProblem err))
  | Ok None => mret (false, None)
  | Ok (Some runState) =>
      if negb (runstate.IsUnfinished runState)
      then mret (false, None)
      else
        match runstate.UnfinishedDetails runState with
        | None => mret (false, Some NilDereference)
        | Some details =>
            asked ← AskHowToHandleUnfinishedRunState
                      (runstate.Command runState)
                      (runstate.EndBranch details)
                      (runstate.EndTime details)
                      (runstate.CanSkip details);
            match asked with
            | Failed err => mret (false, Some err)
            | Ok response => switchResponse response runState args
            end
        end
  end.

End Handler.

End validate.

(** ** Package [cmd]: the append command *)

Module cmd.

Record appendConfig : Type := {
  (** [*configdomain.FullConfig]: points at [repo.Runner.FullConfig] *)
  FullConfig : configdomain.FullConfig;
  branches : configdomain.Branches;
  branchesToSync : gitdomain.BranchInfos;
  dryRun : bool;
  hasOpenChanges : bool;
  remotes : gitdomain.Remotes;
  newBranchParentCandidates : gitdomain.LocalBranchNames;
  parentBranch : gitdomain.LocalBranchName;
  previousBranch : gitdomain.LocalBranchName;
  targetBranch : gitdomain.LocalBranchName
}.

(** Go's five results of [determineAppendConfig]; [None] is the [nil]
    config. *)
Definition appendConfigResult : Type :=
  option appendConfig * gitdomain.BranchesStatus * gitdomain.StashSize * bool * option Error.

Definition withLineage (lineage : configdomain.Lineage) (c : configdomain.FullConfig)
    : configdomain.FullConfig :=
  {| configdomain.Lineage_ := lineage;
     configdomain.MainBranch := configdomain.MainBranch c;
     configdomain.NewBranchPush := configdomain.NewBranchPush c;
     configdomain.Offline := configdomain.Offline c |}.

Section Append.
Context (ext : Collaborators).

Definition determineAppendConfig (targetBranch : gitdomain.LocalBranchName)
    (repo : execute.OpenRepoResult) (dryRun verbose : bool) : M appendConfigResult :=
  let fc : execute.FailureCollector := None in
  let fullConfig := git.FullConfig (execute.Runner repo) in
  loaded ← execute_LoadBranches ext fullConfig repo verbose true true true false;
  let branches := execute.branches loaded in
  let branchesSnapshot := execute.branchesSnapshot loaded in
  let stashSnapshot := execute.stashSnapshot loaded in
  let exit := execute.exit loaded in
  let err := execute.err loaded in
  if notNil err || exit
  then mret (None, branchesSnapshot, stashSnapshot, exit, err)
  else
    previousBranch ← git.PreviouslyCheckedOutBranch;
    gotRemotes ← git.Remotes;
    let '(remotes, fc) := execute.Remotes fc gotRemotes in
    gotStatus ← git.RepoStatus;
    let '(repoStatus, fc) := execute.RepoStatus fc gotStatus in
    match fc with
    | Some e => mret (None, branchesSnapshot, stashSnapshot, false, Some e)
    | None =>
        let fc :=
          if gitdomain.HasLocalBranch (configdomain.All branches) targetBranch
          then execute.Fail fc (BranchAlreadyExistsLocally targetBranch) else fc in
        let fc :=
          if gitdomain.HasMatchingTrackingBranchFor (configdomain.All branches) targetBranch
          then execute.Fail fc (BranchAlreadyExistsRemotely targetBranch) else fc in
        ensured ← execute_EnsureKnownBranchAncestry ext
                    (configdomain.Initial branches) fullConfig (configdomain.All branches)
                    (configdomain.Types branches) (configdomain.MainBranch fullConfig);
        let '(types, lineage, err) := ensured in
        (* branches.Types and repo.Runner.Lineage are assigned here *)
        let branches :=
          {| configdomain.All := configdomain.All branches;
             configdomain.Initial := configdomain.Initial branches;
             configdomain.Types := types |} in
        let fullConfig := withLineage lineage fullConfig in
        match err with
        | Some e => mret (None, branchesSnapshot, stashSnapshot, false, Some e)
        | None =>
            let branchNamesToSync :=
              configdomain.BranchAndAncestors lineage (configdomain.Initial branches) in
            let '(branchesToSync, fc) :=
              execute.BranchesSyncStatus fc
                (gitdomain.Select (configdomain.All branches) branchNamesToSync) in
            let initialAndAncestors :=
              configdomain.BranchAndAncestors lineage (configdomain.Initial branches) in
            let initialAndAncestors := rev initialAndAncestors in
            mret (Some {| branches := branches;
                          branchesToSync := branchesToSync;
                          FullConfig := fullConfig;
                          dryRun := dryRun;
                          hasOpenChanges := gitdomain.OpenChanges repoStatus;
                          remotes := remotes;
                          newBranchParentCandidates := initialAndAncestors;
                          parentBranch := configdomain.Initial branches;
                          previousBranch := previousBranch;
                          targetBranch := targetBranch |},
                  branchesSnapshot, stashSnapshot, false, fc)
        end
    end.

(** The [for _, branch := range config.branchesToSync] loop: each round
    lets [sync.BranchProgram] extend the program. *)
Definition syncBranches (config : appendConfig) (prog : program.Program) : program.Program :=
  fold_left
    (fun prog branch =>
       sync_BranchProgram ext branch (FullConfig config)
         (configdomain.All (branches config)) (configdomain.Types (branches config))
         (remotes config) true prog)
    (branchesToSync config) prog.

(** The program [appendProgram] has built when it reaches
    [cmdhelpers.Wrap]. *)
Definition appendProgramBeforeWrap (config : appendConfig) : program.Program :=
  let prog : program.Program := [] in
  let prog := syncBranches config prog in
  let prog := program.Add prog
    (opcode.CreateBranchExistingParent (newBranchParentCandidates config) (targetBranch config)) in
  let prog := program.Add prog
    (opcode.SetExistingParent (targetBranch config) (newBranchParentCandidates config)) in
  let prog := program.Add prog (opcode.Checkout (targetBranch config)) in
  if gitdomain.HasOrigin (remotes config)
     && configdomain.ShouldNewBranchPush (FullConfig config)
     && configdomain.IsOnline (FullConfig config)
  then program.Add prog
         (opcode.OfCreateTrackingBranch {| opcode.Branch := targetBranch config |})
  else prog.

(** The sync sub-sequence of one branch: what [sync.BranchProgram]
    makes of the empty program. *)
Definition syncOf (config : appendConfig) (branch : gitdomain.BranchInfo) : program.Program :=
  sync_BranchProgram ext branch (FullConfig config)
    (configdomain.All (branches config)) (configdomain.Types (branches config))
    (remotes config) true [].

(** [sync.BranchProgram] only appends to the program it is given. *)
Definition BranchProgram_appends : Prop :=
  forall branch config all types remotes pushBranch prog,
    sync_BranchProgram ext branch config all types remotes pushBranch prog
    = prog ++ sync_BranchProgram ext branch config all types remotes pushBranch [].

Definition appendWrapOptions (config : appendConfig) : cmdhelpers.WrapOptions :=
  {| cmdhelpers.DryRun := dryRun config;
     cmdhelpers.RunInGitRoot := true;
     cmdhelpers.StashOpenChanges := hasOpenChanges config;
     cmdhelpers.PreviousBranchCandidates :=
       [configdomain.Initial (branches config); previousBranch config] |}.

Definition appendProgram (config : appendConfig) : program.Program :=
  cmdhelpers_Wrap ext (appendProgramBeforeWrap config) (appendWrapOptions config).

Definition executeAppend (arg : string) (dryRun verbose : bool) : M (option Error) :=
  opened ← execute_OpenRepo ext verbose dryRun false true false true;
  match opened with
  | Failed err => mret (Some err)
  | Ok repo =>
      determined ← determineAppendConfig arg repo dryRun verbose;
      let '(config, initialBranchesSnapshot, initialStashSnapshot, exit, err) := determined in
      if notNil err || exit
      then mret err
      else
        match config with
        | None => mret (Some NilDereference)
        | Some config =>
            let runState :=
              {| runstate.Command := "append";
                 runstate.DryRun := dryRun;
                 runstate.InitialActiveBranch := gitdomain.Active initialBranchesSnapshot;
                 runstate.RunProgram := appendProgram config;
                 runstate.UnfinishedDetails := None |} in
            Execute ext
              {| interpreter.FullConfig := FullConfig config;
                 interpreter.RunState := runState;
                 (* repo.Runner, whose lineage determineAppendConfig has set:
                    config.FullConfig points into it *)
                 interpreter.Run := {| git.FullConfig := FullConfig config |};
                 interpreter.Connector := None;
                 interpreter.Verbose := verbose;
                 interpreter.RootDir := execute.RootDir repo;
                 interpreter.InitialBranchesSnapshot := initialBranchesSnapshot;
                 interpreter.InitialConfigSnapshot := execute.ConfigSnapshot repo;
                 interpreter.InitialStashSnapshot := initialStashSnapshot |}
        end
  end.

End Append.

End cmd.

(** ** Package [cmd], v7: [ship.go] *)

Module ship.

(** How a Go call ends: it returns, the process exits through
    [cli.Exit(err)], or the runtime panics. *)
Inductive RuntimePanic : Type :=
  | SliceBoundsOutOfRange (low len : nat)
  | IndexOutOfRange (index len : nat).

Inductive Control (A : Type) : Type :=
  | Returns (a : A)
  | Exits (err : Error)
  | Panics (p : RuntimePanic).
Arguments Returns {A} a.
Arguments Exits {A} err.
Arguments Panics {A} p.

Definition andThen {A B} (c : Control A) (k : A -> Control B) : Control B :=
  match c with
  | Returns a => k a
  | Exits e => Exits e
  | Panics p => Panics p
  end.

(** Go's [s[low:]] and [s[i]], with their bounds checks. *)
Definition sliceFrom {A} (low : nat) (s : list A) : Control (list A) :=
  if (low <=? length s)%nat then Returns (drop low s)
  else Panics (SliceBoundsOutOfRange low (length s)).

Definition index {A} (s : list A) (i : nat) : Control A :=
  match s !! i with
  | Some x => Returns x
  | None => Panics (IndexOutOfRange i (length s))
  end.

Record PullRequestInfo : Type := {
  CanMergeWithAPI : bool;
  DefaultCommitMessage : string;
  PullRequestNumber : Z
}.

(** [hosting.PullRequestInfo{}] *)
Definition emptyPullRequestInfo : PullRequestInfo :=
  {| CanMergeWithAPI := false; DefaultCommitMessage := ""; PullRequestNumber := 0 |}.

(** [hosting.Driver], the one method [ship.go] calls.  A driver value of
    type [option Driver] that is [None] is Go's [nil] driver. *)
Record Driver : Type := {
  LoadPullRequestInfo : string -> string -> Result PullRequestInfo
}.

(** [git.ProdRepo]: what the repository and its configuration answer to
    the queries of [ship.go] ([repo.Silent], [repo.Config],
    [repo.Logging]). *)
Record ProdRepo : Type := {
  CurrentBranch : Result string;
  HasOpenChanges : Result bool;
  HasOrigin : Result bool;
  IsOffline : Result bool;
  Fetch : option Error;
  HasLocalOrOriginBranch : string -> Result bool;
  IsFeatureBranch : string -> bool;
  ParentBranch : string -> string;
  IsMainBranch : string -> bool;
  IsPerennialBranch : string -> bool;
  AncestorBranches : string -> list string;
  HasTrackingBranch : string -> Result bool;
  ShouldShipDeleteOriginBranch : Result bool;
  ChildBranches : string -> list string
}.

(** The steps [shipStepList] appends; [OtherStep] stands for the steps
    that [syncBranchSteps] and [Wrap] make. *)
Inductive Step : Type :=
  | EnsureHasShippableChangesStep (Branch : string)
  | CheckoutBranchStep (Branch : string)
  | PushBranchStep (Branch : string) (Undoable : bool)
  | DriverMergePullRequestStep (Branch : string) (PullRequestNumber : Z)
                               (CommitMessage DefaultCommitMessage : string)
  | PullBranchStep
  | SquashMergeBranchStep (Branch : string) (CommitMessage : string)
  | DeleteOriginBranchStep (Branch : string) (IsTracking : bool)
  | DeleteLocalBranchStep (Branch : string)
  | DeleteParentBranchStep (Branch : string)
  | SetParentBranchStep (Branch : string) (ParentBranch : string)
  | OtherStep (kind : string) (operands : list string).

Definition StepList := list Step.

Definition isDriverMerge (s : Step) : bool :=
  match s with DriverMergePullRequestStep _ _ _ _ => true | _ => false end.

Record RunState : Type := {
  Command : string;
  RunStepList : StepList
}.

(** [runstate.New(command, stepList)] *)
Definition New (command : string) (stepList : StepList) : RunState :=
  {| Command := command; RunStepList := stepList |}.

Record WrapOptions : Type := {
  RunInGitRoot : bool;
  StashOpenChanges : bool
}.

(** The functions of v7 that [ship.go] calls and that are not among the
    sources. *)
Record Collaborators : Type := {
  (** [hosting.NewDriver(...)]: the driver may be [nil] *)
  hosting_NewDriver : ProdRepo -> Result (option Driver);
  (** [parentDialog.EnsureKnowsParentBranches(branches, repo)]: it may
      store a parent in the configuration, hence the repository it hands
      back *)
  EnsureKnowsParentBranches : list string -> ProdRepo -> Result ProdRepo;
  (** [syncBranchSteps(branch, pushBranch, repo)] *)
  syncBranchSteps : string -> bool -> ProdRepo -> Result StepList;
  (** [result.Wrap(options, repo)]: the wrapped list and the error *)
  Wrap : StepList -> WrapOptions -> ProdRepo -> StepList * option Error;
  (** [runstate.Execute(runState, repo, driver)] *)
  runstate_Execute : RunState -> ProdRepo -> option Driver -> option Error
}.

Record shipConfig : Type := {
  branchToShip : string;
  branchToMergeInto : string;
  canShipWithDriver : bool;
  childBranches : list string;
  defaultCommitMessage : string;
  hasOrigin : bool;
  hasTrackingBranch : bool;
  initialBranch : string;
  isShippingInitialBranch : bool;
  isOffline : bool;
  pullRequestNumber : Z;
  deleteOriginBranch : bool
}.

Definition ensureParentBranchIsMainOrPerennialBranch (branch : string) (repo : ProdRepo)
    : Control unit :=
  let parentBranch := ParentBranch repo branch in
  if negb (IsMainBranch repo parentBranch) && negb (IsPerennialBranch repo parentBranch)
  then
    let ancestors := AncestorBranches repo branch in
    andThen (sliceFrom 1 ancestors) (fun ancestorsWithoutMainOrPerennial =>
    andThen (index ancestorsWithoutMainOrPerennial 0) (fun oldestAncestor =>
    Exits (ShipOldestAncestorFirst ancestorsWithoutMainOrPerennial oldestAncestor)))
  else Returns tt.

Definition determinePullRequestInfo (branch parentBranch : string) (repo : ProdRepo)
    (driver : option Driver) : Result PullRequestInfo :=
  match HasOrigin repo with
  | Failed err => Failed err
  | Ok hasOrigin =>
      if negb hasOrigin then Ok emptyPullRequestInfo
      else
        match IsOffline repo with
        | Failed err => Failed err
        | Ok isOffline =>
            if isOffline then Ok emptyPullRequestInfo
            else
              match driver with
              | None => Ok emptyPullRequestInfo
              | Some driver => LoadPullRequestInfo driver branch parentBranch
              end
        end
  end.

(** Early returns of a function with results [(value, error)]: [try]
    is [v, err := f(); if err != nil { return nil, err }], [check] is
    [if err != nil { return nil, err }]. *)
Definition try {A B} (r : Result A) (k : A -> Control (Result B)) : Control (Result B) :=
  match r with
  | Failed err => Returns (Failed err)
  | Ok a => k a
  end.

Definition check {B} (err : option Error) (k : Control (Result B)) : Control (Result B) :=
  match err with
  | Some e => Returns (Failed e)
  | None => k
  end.

Section Ship.
Context (ext : Collaborators).

(** [determineShipConfig]; next to the config it hands back the
    repository as [EnsureKnowsParentBranches] left it, which Go reaches
    through the [repo] pointer. *)
Definition determineShipConfig (args : list string) (driver : option Driver) (repo : ProdRepo)
    : Control (Result (shipConfig * ProdRepo)) :=
  try (CurrentBranch repo) (fun initialBranch =>
  let branchToShip := match args with [] => initialBranch | arg0 :: _ => arg0 end in
  let isShippingInitialBranch := String.eqb branchToShip initialBranch in
  check (if isShippingInitialBranch
         then match HasOpenChanges repo with
              | Failed err => Some err
              | Ok true => Some UncommittedChanges
              | Ok false => None
              end
         else None) (
  try (HasOrigin repo) (fun hasOrigin =>
  try (IsOffline repo) (fun isOffline =>
  check (if hasOrigin && negb isOffline then Fetch repo else None) (
  check (if negb isShippingInitialBranch
         then match HasLocalOrOriginBranch repo branchToShip with
              | Failed err => Some err
              | Ok false => Some (NoBranchNamed branchToShip)
              | Ok true => None
              end
         else None) (
  check (if negb (IsFeatureBranch repo branchToShip)
         then Some (NotAFeatureBranch branchToShip) else None) (
  try (EnsureKnowsParentBranches ext [branchToShip] repo) (fun repo =>
  andThen (ensureParentBranchIsMainOrPerennialBranch branchToShip repo) (fun _ =>
  try (HasTrackingBranch repo branchToShip) (fun hasTrackingBranch =>
  let branchToMergeInto := ParentBranch repo branchToShip in
  try (determinePullRequestInfo branchToShip branchToMergeInto repo driver) (fun prInfo =>
  try (ShouldShipDeleteOriginBranch repo) (fun deleteOrigin =>
  Returns (Ok ({| isOffline := isOffline;
                  isShippingInitialBranch := isShippingInitialBranch;
                  branchToMergeInto := branchToMergeInto;
                  branchToShip := branchToShip;
                  canShipWithDriver := CanMergeWithAPI prInfo;
                  childBranches := ChildBranches repo branchToShip;
                  defaultCommitMessage := DefaultCommitMessage prInfo;
                  deleteOriginBranch := deleteOrigin;
                  hasOrigin := hasOrigin;
                  hasTrackingBranch := hasTrackingBranch;
                  initialBranch := initialBranch;
                  pullRequestNumber := PullRequestNumber prInfo |}, repo)))))))))))))).

(** The steps [shipStepList] appends after the two sync lists and before
    [result.Wrap]. *)
Definition shipOwnSteps (config : shipConfig) (commitMessage : string) : StepList :=
  let result : StepList := [] in
  let result := result ++ [EnsureHasShippableChangesStep (branchToShip config)] in
  let result := result ++ [CheckoutBranchStep (branchToMergeInto config)] in
  let result :=
    if canShipWithDriver config
    then
      let result := result ++ [PushBranchStep (branchToShip config) false] in
      let result := result ++ [DriverMergePullRequestStep (branchToShip config)
                                 (pullRequestNumber config) commitMessage
                                 (defaultCommitMessage config)] in
      result ++ [PullBranchStep]
    else result ++ [SquashMergeBranchStep (branchToShip config) commitMessage] in
  let result :=
    if hasOrigin config && negb (isOffline config)
    then result ++ [PushBranchStep (branchToMergeInto config) true]
    else result in
  let result :=
    if canShipWithDriver config
       || (hasTrackingBranch config
           && (length (childBranches config) =? 0)%nat
           && negb (isOffline config))
    then
      if deleteOriginBranch config
      then result ++ [DeleteOriginBranchStep (branchToShip config) true]
      else result
    else result in
  let result := result ++ [DeleteLocalBranchStep (branchToShip config)] in
  let result := result ++ [DeleteParentBranchStep (branchToShip config)] in
  let result :=
    fold_left
      (fun result child => result ++ [SetParentBranchStep child (branchToMergeInto config)])
      (childBranches config) result in
  if negb (isShippingInitialBranch config)
  then result ++ [CheckoutBranchStep (initialBranch config)]
  else result.

Definition shipStepList (config : shipConfig) (commitMessage : string) (repo : ProdRepo)
    : StepList * option Error :=
  match syncBranchSteps ext (branchToMergeInto config) true repo with
  | Failed err => ([], Some err)
  | Ok syncSteps =>
      let result : StepList := [] in
      let result := result ++ syncSteps in
      match syncBranchSteps ext (branchToShip config) false repo with
      | Failed err => ([], Some err)
      | Ok syncSteps =>
          let result := result ++ syncSteps in
          let result := result ++ shipOwnSteps config commitMessage in
          Wrap ext result
            {| RunInGitRoot := true;
               StashOpenChanges := negb (isShippingInitialBranch config) |} repo
      end
  end.

(** The [Run] closure of [shipCmd] up to [runstate.New]: what it is about
    to hand to [runstate.Execute]. *)
Definition shipCmdPlan (args : list string) (commitMessage : string) (repo : ProdRepo)
    : Control (RunState * ProdRepo * option Driver) :=
  match hosting_NewDriver ext repo with
  | Failed err => Exits err
  | Ok driver =>
      andThen (determineShipConfig args driver repo) (fun determined =>
      match determined with
      | Failed err => Exits err
      | Ok (config, repo) =>
          let (stepList, err) := shipStepList config commitMessage repo in
          match err with
          | Some e => Exits e
          | None => Returns (New "ship" stepList, repo, driver)
          end
      end)
  end.

(** A run of the command: the run state handed to [runstate.Execute], if
    the closure got that far, and how the closure ended. *)
Record ShipRun : Type := {
  executed : option RunState;
  ending : Control unit
}.

Definition shipCmdRun (args : list string) (commitMessage : string) (repo : ProdRepo)
    : ShipRun :=
  match shipCmdPlan args commitMessage repo with
  | Returns (runState, repo, driver) =>
      {| executed := Some runState;
         ending := match runstate_Execute ext runState repo driver with
                   | Some err => Exits err
                   | None => Returns tt
                   end |}
  | Exits err => {| executed := None; ending := Exits err |}
  | Panics p => {| executed := None; ending := Panics p |}
  end.

End Ship.

End ship.

(** ** Concrete repositories and collaborators

    The theorems below hold for every collaborator; the instances here make
    the embedded functions runnable on concrete inputs. *)

Module scenario.

Definition root : gitdomain.RepoRootDir := "/repo".

Definition haltedAt : runstate.UnfinishedRunStateDetails :=
  {| runstate.CanSkip := true; runstate.EndBranch := "feature"; runstate.EndTime := 1700000000 |}.

(** A sync that halted on a conflict, and the same run state once
    finished. *)
Definition halted : runstate.RunState :=
  {| runstate.Command := "sync";
     runstate.DryRun := false;
     runstate.InitialActiveBranch := "feature";
     runstate.RunProgram := [opcode.Planned "ContinueRebase" []; opcode.Planned "Push" ["feature"]];
     runstate.UnfinishedDetails := Some haltedAt |}.

Definition finished : runstate.RunState :=
  {| runstate.Command := "sync";
     runstate.DryRun := false;
     runstate.InitialActiveBranch := "feature";
     runstate.RunProgram := [];
     runstate.UnfinishedDetails := None |}.

Definition clean : gitdomain.RepoStatus :=
  {| gitdomain.Conflicts := false; gitdomain.OpenChanges := false |}.
Definition conflicted : gitdomain.RepoStatus :=
  {| gitdomain.Conflicts := true; gitdomain.OpenChanges := true |}.
Definition dirty : gitdomain.RepoStatus :=
  {| gitdomain.Conflicts := false; gitdomain.OpenChanges := true |}.

Definition world (file : option StateFile) (status : gitdomain.RepoStatus) : World :=
  {| files := match file with Some f => {[ root := f ]} | None => ∅ end;
     storageFault := None;
     repoStatus := Ok status;
     remotes := Ok ["origin"];
     previouslyCheckedOut := "main" |}.

(** Modelled from the spec: the interpreter ("pops opcodes off
    [pending_program] one at a time ... terminal success: any previously
    persisted state for this repository is deleted"), on a run in which
    every opcode succeeds; package [interpreter] is not among the
    sources. *)
Definition runToCompletion (a : interpreter.ExecuteArgs) : M (option Error) :=
  fun w =>
    {| value := None;
       after := withFiles (delete (interpreter.RootDir a) (files w)) w;
       events := map EvRun (runstate.RunProgram (interpreter.RunState a))
                 ++ [EvDelete (interpreter.RootDir a)] |}.

(** Modelled from the spec: [cmdhelpers.Wrap] ("stash happens first, a
    final checkout-previous-branch happens last, restoring stashed changes
    happens after that checkout"); package [cmdhelpers] is not among the
    sources. *)
Definition Wrap (prog : program.Program) (options : cmdhelpers.WrapOptions) : program.Program :=
  (if cmdhelpers.StashOpenChanges options then [opcode.Planned "StashOpenChanges" []] else [])
  ++ prog
  ++ [opcode.Planned "PreserveCheckoutHistory" (cmdhelpers.PreviousBranchCandidates options)]
  ++ (if cmdhelpers.StashOpenChanges options then [opcode.Planned "RestoreOpenChanges" []] else []).

(** Modelled from the spec: [sync.BranchProgram] (the branch-sync
    planner): reconcile with the parent, then push when a remote exists,
    pushing is asked for and the run is online; package [sync] is not
    among the sources. *)
Definition BranchProgram (branch : gitdomain.BranchInfo) (config : configdomain.FullConfig)
    (all : gitdomain.BranchInfos) (types : configdomain.BranchTypes)
    (remotes : gitdomain.Remotes) (pushBranch : bool) (prog : program.Program)
    : program.Program :=
  prog
  ++ match configdomain.Lineage_ config !! gitdomain.LocalName branch with
     | Some parent => [opcode.Planned "Merge" [parent; gitdomain.LocalName branch]]
     | None => []
     end
  ++ (if gitdomain.HasOrigin remotes && pushBranch && configdomain.IsOnline config
      then [opcode.Planned "Push" [gitdomain.LocalName branch]] else []).

Definition main : gitdomain.BranchInfo :=
  {| gitdomain.LocalName := "main"; gitdomain.RemoteName := "origin/main" |}.
Definition feature : gitdomain.BranchInfo :=
  {| gitdomain.LocalName := "feature"; gitdomain.RemoteName := "origin/feature" |}.

Definition config : configdomain.FullConfig :=
  {| configdomain.Lineage_ := {[ "feature" := "main" ]};
     configdomain.MainBranch := "main";
     configdomain.NewBranchPush := true;
     configdomain.Offline := false |}.

Definition repo : execute.OpenRepoResult :=
  {| execute.Runner := {| git.FullConfig := config |};
     execute.RootDir := root;
     execute.ConfigSnapshot := [] |}.

Definition snapshot : gitdomain.BranchesStatus :=
  {| gitdomain.Active := "feature"; gitdomain.Branches := [main; feature] |}.

(** What [execute.LoadBranches] finds on branch [feature] when no
    unfinished run state is in the way. *)
Definition loaded : execute.LoadBranchesResult :=
  {| execute.branches :=
       {| configdomain.All := [main; feature];
          configdomain.Initial := "feature";
          configdomain.Types := ["main"] |};
     execute.branchesSnapshot := snapshot;
     execute.stashSnapshot := 0;
     execute.exit := false;
     execute.err := None |}.

(** The collaborators of a run in which the user gives [answer] at the
    resume prompt. *)
Definition collaborators (answer : Result dialog.Response) : Collaborators :=
  {| interpreter_Execute := runToCompletion;
     dialog_AskHowToHandleUnfinishedRunState := fun _ _ _ _ => answer;
     runstate_CreateAbortRunState := fun rs => rs;
     runstate_CreateSkipRunState := fun rs => rs;
     execute_OpenRepo := fun _ _ _ _ _ _ => ret (Ok repo);
     execute_LoadBranches := fun _ _ _ _ _ _ _ => ret loaded;
     execute_EnsureKnownBranchAncestry :=
       fun _ c _ types _ => ret (types, configdomain.Lineage_ c, None);
     sync_BranchProgram := BranchProgram;
     cmdhelpers_Wrap := Wrap |}.

Definition args : validate.UnfinishedStateArgs :=
  {| validate.Connector := None;
     validate.Verboe := false;
     validate.Lineage := {[ "feature" := "main" ]};
     validate.InitialBranchesSnapshot := snapshot;
     validate.InitialConfigSnapshot := [];
     validate.InitialStashSnapshot := 0;
     validate.PushHook := true;
     validate.RootDir := root;
     validate.Run := {| git.FullConfig := config |} |}.

(** The handler on the halted sync, with the user answering [response]
    and the repository in [status]. *)
Definition haltedWorld (status : gitdomain.RepoStatus) : World :=
  world (Some (Stored halted)) status.

Definition resume (response : dialog.Response) (status : gitdomain.RepoStatus)
    : Outcome (bool * option Error) :=
  validate.HandleUnfinishedState (collaborators (Ok response)) args (haltedWorld status).

(** The handler when the run state on disk is a finished one. *)
Definition passOver : Outcome (bool * option Error) :=
  validate.HandleUnfinishedState (collaborators (Ok dialog.ResponseQuit)) args
    (world (Some (Stored finished)) clean).

Definition retry : dialog.Response := {| dialog.name := "retry" |}.

(** Appending [feature-2] to [feature], a child of [main], in a work tree
    in state [status]: the config [determineAppendConfig] arrives at, and
    the opcodes planned for it. *)
Definition appendWorld (status : gitdomain.RepoStatus) : World := world None status.

Definition appendConfig (status : gitdomain.RepoStatus) : cmd.appendConfig :=
  {| cmd.FullConfig := config;
     cmd.branches := execute.branches loaded;
     cmd.branchesToSync := [main; feature];
     cmd.dryRun := false;
     cmd.hasOpenChanges := gitdomain.OpenChanges status;
     cmd.remotes := ["origin"];
     cmd.newBranchParentCandidates := ["feature"; "main"];
     cmd.parentBranch := "feature";
     cmd.previousBranch := "main";
     cmd.targetBranch := "feature-2" |}.

(** The collaborators of the append runs; no run state is on disk, so the
    prompt is never reached. *)
Definition ext : Collaborators := collaborators (Ok dialog.ResponseQuit).

Definition plannedAppend : program.Program :=
  [ opcode.Planned "Push" ["main"];
    opcode.Planned "Merge" ["main"; "feature"];
    opcode.Planned "Push" ["feature"];
    opcode.CreateBranchExistingParent ["feature"; "main"] "feature-2";
    opcode.SetExistingParent "feature-2" ["feature"; "main"];
    opcode.Checkout "feature-2";
    opcode.OfCreateTrackingBranch {| opcode.Branch := "feature-2" |} ].

(** A v7 repository on branch [feature], a child of [main], with an origin
    and no hosting driver. *)
Definition prodRepo : ship.ProdRepo :=
  {| ship.CurrentBranch := Ok "feature";
     ship.HasOpenChanges := Ok false;
     ship.HasOrigin := Ok true;
     ship.IsOffline := Ok false;
     ship.Fetch := None;
     ship.HasLocalOrOriginBranch := fun _ => Ok true;
     ship.IsFeatureBranch := fun b => negb (String.eqb b "main");
     ship.ParentBranch := fun _ => "main";
     ship.IsMainBranch := fun b => String.eqb b "main";
     ship.IsPerennialBranch := fun _ => false;
     ship.AncestorBranches := fun _ => ["main"];
     ship.HasTrackingBranch := fun _ => Ok true;
     ship.ShouldShipDeleteOriginBranch := Ok true;
     ship.ChildBranches := fun _ => [] |}.

(** The same repository with [feature] configured as a child of [hotfix],
    a branch whose own lineage holds [ancestors]. *)
Definition nestedRepo (ancestors : list string) : ship.ProdRepo :=
  {| ship.CurrentBranch := Ok "feature";
     ship.HasOpenChanges := Ok false;
     ship.HasOrigin := Ok true;
     ship.IsOffline := Ok false;
     ship.Fetch := None;
     ship.HasLocalOrOriginBranch := fun _ => Ok true;
     ship.IsFeatureBranch := fun b => negb (String.eqb b "main");
     ship.ParentBranch := fun _ => "hotfix";
     ship.IsMainBranch := fun b => String.eqb b "main";
     ship.IsPerennialBranch := fun _ => false;
     ship.AncestorBranches := fun _ => ancestors;
     ship.HasTrackingBranch := fun _ => Ok true;
     ship.ShouldShipDeleteOriginBranch := Ok true;
     ship.ChildBranches := fun _ => [] |}.

(** The config [determineShipConfig] arrives at for [prodRepo]. *)
Definition shipConfig : ship.shipConfig :=
  {| ship.branchToShip := "feature";
     ship.branchToMergeInto := "main";
     ship.canShipWithDriver := false;
     ship.childBranches := [];
     ship.defaultCommitMessage := "";
     ship.hasOrigin := true;
     ship.hasTrackingBranch := true;
     ship.initialBranch := "feature";
     ship.isShippingInitialBranch := true;
     ship.isOffline := false;
     ship.pullRequestNumber := 0;
     ship.deleteOriginBranch := true |}.

Definition shipCollaborators : ship.Collaborators :=
  {| ship.hosting_NewDriver := fun _ => Ok None;
     ship.EnsureKnowsParentBranches := fun _ r => Ok r;
     ship.syncBranchSteps := fun b _ _ => Ok [ship.OtherStep "sync" [b]];
     ship.Wrap := fun steps _ _ => (steps, None);
     ship.runstate_Execute := fun _ _ _ => None |}.



End scenario.

(** ** Tool [structs_sorted]: [structs_sorted.go] *)

Module structs_sorted.

(** file paths to ignore *)
Definition ignorePaths : list string :=
  ["vendor/"; "tools/structs_sorted/test.go"].

(** struct types to ignore *)
Definition ignoreTypes : list string :=
  ["BranchSpan"; "Change"; "InconsistentChange"; "Parts"; "ProdRunner"].

(** Go's [strings.HasPrefix(s, prefix)] and [strings.HasSuffix(s, suffix)]:
    long enough, and equal on that many bytes at the start or the end. *)
Definition HasPrefix (s prefix : string) : bool :=
  (String.length prefix <=? String.length s)%nat
  && String.eqb (String.substring 0 (String.length prefix) s) prefix.

Definition HasSuffix (s suffix : string) : bool :=
  (String.length suffix <=? String.length s)%nat
  && String.eqb
       (String.substring (String.length s - String.length suffix) (String.length suffix) s)
       suffix.

(** The loop of [isIgnoredPath] over a list of ignored prefixes. *)
Fixpoint isIgnoredAmong (ignores : list string) (path : string) : bool :=
  match ignores with
  | [] => false
  | ignore :: rest => if HasPrefix path ignore then true else isIgnoredAmong rest path
  end.

Definition isIgnoredPath (path : string) : bool :=
  isIgnoredAmong ignorePaths path.

(** What [filepath.Walk] hands to its callback for one file or directory:
    the path, the [os.FileInfo] ([Name], [IsDir]) and the error of getting
    there. *)
Record WalkEntry : Type := {
  path : string;
  Name : string;
  IsDir : bool;
  walkErr : option Error
}.

(** The nodes [ast.Inspect] visits, by the cases of the type switch in
    [LintFile]. *)
Inductive Node (TypeSpec CompositeLit : Type) : Type :=
  | OfTypeSpec (typedNode : TypeSpec)
  | OfCompositeLit (typedNode : CompositeLit)
  | OtherNode.
Arguments OfTypeSpec {TypeSpec CompositeLit} typedNode.
Arguments OfCompositeLit {TypeSpec CompositeLit} typedNode.
Arguments OtherNode {TypeSpec CompositeLit}.

(** What [main] prints. *)
Inductive Printed (Issue : Type) : Type :=
  | PrintedError (err : Error)
  | PrintedIssues (issues : list Issue).
Arguments PrintedError {Issue} err.
Arguments PrintedIssues {Issue} issues.

(** How [main] ends: what it has printed and the code given to
    [os.Exit]. *)
Record Exit (Issue : Type) : Type := {
  printed : list (Printed Issue);
  code : nat
}.
Arguments printed {Issue} _.
Arguments code {Issue} _.

Section Linter.
(** The parser of package [go/parser], whose result is the file set it has
    filled and the nodes of the file in the order [ast.Inspect] visits
    them, and the two linters of this tool that live in other files. *)
Context {TypeSpec CompositeLit FileSet Issue : Type}.
Context (ParseFile : string -> Result (FileSet * list (Node TypeSpec CompositeLit))).
Context (lintStructDefinition : TypeSpec -> FileSet -> list Issue).
Context (lintStructLiteral : CompositeLit -> FileSet -> list Issue).

(** The callback of [ast.Inspect] in [LintFile], over the nodes in visiting
    order. *)
Fixpoint inspect (fileSet : FileSet) (nodes : list (Node TypeSpec CompositeLit))
    (result : list Issue) : list Issue :=
  match nodes with
  | [] => result
  | node :: rest =>
      let result :=
        match node with
        | OfTypeSpec typedNode => result ++ lintStructDefinition typedNode fileSet
        | OfCompositeLit typedNode => result ++ lintStructLiteral typedNode fileSet
        | OtherNode => result
        end in
      inspect fileSet rest result
  end.

Definition LintFile (path : string) : list Issue :=
  let result : list Issue := [] in
  match ParseFile path with
  | Failed _ => result
  | Ok (fileSet, nodes) => inspect fileSet nodes result
  end.

(** The callback [main] gives to [filepath.Walk]: the issues so far, and
    the error it returns. *)
Definition visit (issues : list Issue) (entry : WalkEntry) : list Issue * option Error :=
  if notNil (walkErr entry)
     || IsDir entry
     || negb (HasSuffix (Name entry) ".go")
     || isIgnoredPath (path entry)
  then (issues, walkErr entry)
  else (issues ++ LintFile (path entry), None).

(** [filepath.Walk]: the callback is called entry by entry, and the first
    error it returns ends the walk and is the walk's error. *)
Fixpoint Walk (entries : list WalkEntry) (issues : list Issue) : list Issue * option Error :=
  match entries with
  | [] => (issues, None)
  | entry :: rest =>
      match visit issues entry with
      | (issues, Some err) => (issues, Some err)
      | (issues, None) => Walk rest issues
      end
  end.

(** [main], on the tree that [filepath.Walk(".", ...)] finds. *)
Definition main (entries : list WalkEntry) : Exit Issue :=
  match Walk entries [] with
  | (_, Some err) => {| printed := [PrintedError err]; code := 1 |}
  | (issues, None) =>
      {| printed := if (0 <? length issues)%nat then [PrintedIssues issues] else [];
         code := length issues |}
  end.

(** The entries the callback lints: regular files, named [*.go], not under
    an ignored path. *)
Definition isLinted (entry : WalkEntry) : bool :=
  negb (IsDir entry) && HasSuffix (Name entry) ".go" && negb (isIgnoredPath (path entry)).

End Linter.

End structs_sorted.

(** ** Predicates on effects and steps used in the statements below *)

(** A call of [interpreter.Execute]. *)
Definition isExecute (ev : Event) : bool :=
  match ev with
  | EvExecute _ _ => true
  | _ => false
  end.

Definition isSetParent (s : ship.Step) : bool :=
  match s with
  | ship.SetParentBranchStep _ _ => true
  | _ => false
  end.

Definition isSquashMerge (s : ship.Step) : bool :=
  match s with
  | ship.SquashMergeBranchStep _ _ => true
  | _ => false
  end.

(** ** More concrete runs *)

Module sample.

(** Collaborators of an append in which loading the branches ends with the
    signal to exit: the unfinished-state handler has dealt with the
    invocation. *)
Definition quitting : Collaborators :=
  {| interpreter_Execute := scenario.runToCompletion;
     dialog_AskHowToHandleUnfinishedRunState := fun _ _ _ _ => Ok dialog.ResponseQuit;
     runstate_CreateAbortRunState := fun rs => rs;
     runstate_CreateSkipRunState := fun rs => rs;
     execute_OpenRepo := fun _ _ _ _ _ _ => ret (Ok scenario.repo);
     execute_LoadBranches :=
       fun _ _ _ _ _ _ _ =>
         ret {| execute.branches :=
                  {| configdomain.All := []; configdomain.Initial := "";
                     configdomain.Types := [] |};
                execute.branchesSnapshot := scenario.snapshot;
                execute.stashSnapshot := 0;
                execute.exit := true;
                execute.err := None |};
     execute_EnsureKnownBranchAncestry :=
       fun _ c _ types _ => ret (types, configdomain.Lineage_ c, None);
     sync_BranchProgram := scenario.BranchProgram;
     cmdhelpers_Wrap := scenario.Wrap |}.

(** A hosting driver that knows pull request 7 for every branch. *)
Definition driver : ship.Driver :=
  {| ship.LoadPullRequestInfo :=
       fun _ _ => Ok {| ship.CanMergeWithAPI := true;
                        ship.DefaultCommitMessage := "feature (#7)";
                        ship.PullRequestNumber := 7 |} |}.

(** The config [determineShipConfig] arrives at for [scenario.prodRepo]
    with that driver. *)
Definition driverConfig : ship.shipConfig :=
  {| ship.branchToShip := "feature";
     ship.branchToMergeInto := "main";
     ship.canShipWithDriver := true;
     ship.childBranches := [];
     ship.defaultCommitMessage := "feature (#7)";
     ship.hasOrigin := true;
     ship.hasTrackingBranch := true;
     ship.initialBranch := "feature";
     ship.isShippingInitialBranch := true;
     ship.isOffline := false;
     ship.pullRequestNumber := 7;
     ship.deleteOriginBranch := true |}.

(** [scenario.prodRepo] with uncommitted changes, and with no branch but
    the checked-out one. *)
Definition dirtyRepo : ship.ProdRepo :=
  {| ship.CurrentBranch := Ok "feature";
     ship.HasOpenChanges := Ok true;
     ship.HasOrigin := Ok true;
     ship.IsOffline := Ok false;
     ship.Fetch := None;
     ship.HasLocalOrOriginBranch := fun _ => Ok false;
     ship.IsFeatureBranch := fun b => negb (String.eqb b "main");
     ship.ParentBranch := fun _ => "main";
     ship.IsMainBranch := fun b => String.eqb b "main";
     ship.IsPerennialBranch := fun _ => false;
     ship.AncestorBranches := fun _ => ["main"];
     ship.HasTrackingBranch := fun _ => Ok true;
     ship.ShouldShipDeleteOriginBranch := Ok true;
     ship.ChildBranches := fun _ => [] |}.

(** A parser that knows one file with a struct definition and a struct
    literal, and two linters that report one issue per struct. *)
Definition ParseFile (path : string)
    : Result (unit * list (structs_sorted.Node string string)) :=
  if String.eqb path "src/cmd/ship.go"
  then Ok (tt, [ structs_sorted.OtherNode;
                 structs_sorted.OfTypeSpec "shipConfig";
                 structs_sorted.OfCompositeLit "shipConfig" ])
  else if String.eqb path "src/cmd/broken.go"
  then Failed (ExternalError "expected declaration")
  else Ok (tt, []).

Definition lintStructDefinition (name : string) (_ : unit) : list string :=
  [("unsorted fields in definition of " ++ name)%string].

Definition lintStructLiteral (name : string) (_ : unit) : list string :=
  [("unsorted fields in literal of " ++ name)%string].

Definition file (path name : string) : structs_sorted.WalkEntry :=
  {| structs_sorted.path := path; structs_sorted.Name := name;
     structs_sorted.IsDir := false; structs_sorted.walkErr := None |}.

Definition dir (path name : string) : structs_sorted.WalkEntry :=
  {| structs_sorted.path := path; structs_sorted.Name := name;
     structs_sorted.IsDir := true; structs_sorted.walkErr := None |}.

Definition unreadable (path : string) : structs_sorted.WalkEntry :=
  {| structs_sorted.path := path; structs_sorted.Name := "";
     structs_sorted.IsDir := false;
     structs_sorted.walkErr := Some (ExternalError "permission denied") |}.

Definition tree : list structs_sorted.WalkEntry :=
  [ dir "." ".";
    file "README.md" "README.md";
    dir "src" "src";
    file "src/cmd/broken.go" "broken.go";
    file "src/cmd/ship.go" "ship.go";
    file "vendor/lib/lib.go" "lib.go" ].

End sample.

(** * Theorems *)

(** Unfolds the monad's plumbing, so that a call shows as its result, the
    world after it and its effects. *)
Ltac run_go :=
  cbv [mbind M_bind bind mret M_ret ret emit getWorld putWorld
       statefile.Load statefile.Delete git.RepoStatus git.Remotes
       git.PreviouslyCheckedOutBranch Execute runstate.IsUnfinished] in *;
  cbn [value after events app negb] in *;
  rewrite ?app_nil_r.

(** [run_go] on the goal alone. *)
Ltac run_goal :=
  cbv [mbind M_bind bind mret M_ret ret emit getWorld putWorld
       statefile.Load statefile.Delete git.RepoStatus git.Remotes
       git.PreviouslyCheckedOutBranch Execute runstate.IsUnfinished];
  cbn [value after events app negb];
  rewrite ?app_nil_r.

(** ** The resume handler ([validate.HandleUnfinishedState]) *)

Section ResumeHandlerSteps.
Context (ext : Collaborators).
Implicit Types (args : validate.UnfinishedStateArgs) (w : World)
  (runState : runstate.RunState) (details : runstate.UnfinishedRunStateDetails).

(** With an unfinished run state on disk the handler loads, asks, and
    leaves the rest to the [switch]. *)
Lemma HandleUnfinishedState_asks args w runState details response :
  files w !! validate.RootDir args = Some (Stored runState) ->
  runstate.UnfinishedDetails runState = Some details ->
  validate.answerTo ext runState details = Ok response ->
  let r := validate.HandleUnfinishedState ext args w in
  let s := validate.switchResponse ext response runState args w in
  value r = value s /\ after r = after s /\
  events r = EvLoad (validate.RootDir args) :: validate.promptFor runState details :: events s.
Proof.
  intros Hfile Hdetails Hanswer.
  unfold validate.HandleUnfinishedState, validate.AskHowToHandleUnfinishedRunState,
    validate.answerTo in *.
  run_go. rewrite Hfile. run_go. rewrite Hdetails. run_go. rewrite Hanswer. cbv zeta.
  destruct (validate.switchResponse ext response runState args w); auto.
Qed.

(** Whatever the user answers, the load and the question come first. *)
Lemma HandleUnfinishedState_prompt_first args w runState details :
  files w !! validate.RootDir args = Some (Stored runState) ->
  runstate.UnfinishedDetails runState = Some details ->
  exists rest,
    events (validate.HandleUnfinishedState ext args w)
    = EvLoad (validate.RootDir args) :: validate.promptFor runState details :: rest.
Proof.
  intros Hfile Hdetails.
  destruct (validate.answerTo ext runState details) as [response | err] eqn:Hanswer.
  - destruct (HandleUnfinishedState_asks args w runState details response)
      as (_ & _ & Hev); auto.
    eexists; exact Hev.
  - exists []. unfold validate.HandleUnfinishedState,
      validate.AskHowToHandleUnfinishedRunState, validate.answerTo in *.
    run_go. rewrite Hfile. run_go. rewrite Hdetails. run_go. rewrite Hanswer. reflexivity.
Qed.

(** When the prompt itself fails, the handler hands the error back. *)
Lemma HandleUnfinishedState_prompt_failed args w runState details err :
  files w !! validate.RootDir args = Some (Stored runState) ->
  runstate.UnfinishedDetails runState = Some details ->
  validate.answerTo ext runState details = Failed err ->
  value (validate.HandleUnfinishedState ext args w) = (false, Some err).
Proof.
  intros Hfile Hdetails Hanswer.
  unfold validate.HandleUnfinishedState, validate.AskHowToHandleUnfinishedRunState,
    validate.answerTo in *.
  run_go. rewrite Hfile. run_go. rewrite Hdetails. run_go. rewrite Hanswer. reflexivity.
Qed.

(** The [switch] at each of the five answers and at any other value. *)
Lemma switchResponse_Discard runState args :
  validate.switchResponse ext dialog.ResponseDiscard runState args
  = validate.discardRunstate (validate.RootDir args).
Proof. reflexivity. Qed.

Lemma switchResponse_Continue runState args :
  validate.switchResponse ext dialog.ResponseContinue runState args
  = validate.continueRunstate ext runState args.
Proof. reflexivity. Qed.

Lemma switchResponse_Undo runState args :
  validate.switchResponse ext dialog.ResponseUndo runState args
  = validate.abortRunstate ext runState args.
Proof. reflexivity. Qed.

Lemma switchResponse_Skip runState args :
  validate.switchResponse ext dialog.ResponseSkip runState args
  = validate.skipRunstate ext runState args.
Proof. reflexivity. Qed.

Lemma switchResponse_Quit runState args :
  validate.switchResponse ext dialog.ResponseQuit runState args = mret (true, None).
Proof. reflexivity. Qed.

Lemma switchResponse_default response runState args :
  response ∉ dialog.known ->
  validate.switchResponse ext response runState args
  = mret (false, Some (DialogUnexpectedResponse (dialog.name response))).
Proof.
  intros Hother. unfold validate.switchResponse.
  repeat match goal with
         | |- context [decide (response = ?known)] =>
             destruct (decide (response = known)) as [-> | _];
             [ exfalso; apply Hother; set_solver | ]
         end.
  reflexivity.
Qed.

(** The answers the [switch] knows, told apart from the rest. *)
Lemma response_cases (response : dialog.Response) :
  response = dialog.ResponseDiscard \/ response = dialog.ResponseContinue \/
  response = dialog.ResponseUndo \/ response = dialog.ResponseSkip \/
  response = dialog.ResponseQuit \/ response ∉ dialog.known.
Proof.
  destruct (decide (response ∈ dialog.known)) as [Hin | Hout]; [ | tauto ].
  unfold dialog.known in Hin. rewrite !elem_of_cons, elem_of_nil in Hin. tauto.
Qed.

(** What [discardRunstate] does: one delete, whose error it returns. *)
Lemma discardRunstate_run (rootDir : gitdomain.RepoRootDir) w :
  let r := validate.discardRunstate rootDir w in
  value r = (false, storageFault w) /\
  events r = [EvDelete rootDir] /\
  after r = match storageFault w with
            | None => withFiles (delete rootDir (files w)) w
            | Some _ => w
            end.
Proof.
  unfold validate.discardRunstate. run_go.
  destruct (storageFault w); run_go; auto.
Qed.

(** What [continueRunstate] does, by the repository's status. *)
Lemma continueRunstate_run runState args w :
  let r := validate.continueRunstate ext runState args w in
  match repoStatus w with
  | Failed err =>
      value r = (false, Some err) /\ after r = w /\ events r = [EvRepoStatus]
  | Ok status =>
      if gitdomain.Conflicts status
      then value r = (false, Some ContinueUnresolvedConflicts)
           /\ after r = w /\ events r = [EvRepoStatus]
      else
        let x := interpreter_Execute ext (validate.executeArgs runState args) w in
        value r = (true, value x) /\ after r = after x /\
        events r = [EvRepoStatus; EvExecute (validate.RootDir args) runState] ++ events x
  end.
Proof.
  unfold validate.continueRunstate. run_go.
  destruct (repoStatus w) as [status | err]; run_go; auto.
  destruct (gitdomain.Conflicts status); run_go; cbv zeta; auto.
  change (interpreter.RootDir (validate.executeArgs runState args))
    with (validate.RootDir args).
  change (interpreter.RunState (validate.executeArgs runState args)) with runState.
  destruct (interpreter_Execute ext (validate.executeArgs runState args) w).
  run_go. auto.
Qed.

(** [abortRunstate] and [skipRunstate] always tell the caller to quit. *)
Lemma abortRunstate_quits runState args w :
  (value (validate.abortRunstate ext runState args w)).1 = true.
Proof.
  unfold validate.abortRunstate. run_go.
  destruct (interpreter_Execute ext _ w); reflexivity.
Qed.

Lemma skipRunstate_quits runState args w :
  (value (validate.skipRunstate ext runState args w)).1 = true.
Proof.
  unfold validate.skipRunstate. run_go.
  destruct (interpreter_Execute ext _ w); reflexivity.
Qed.

End ResumeHandlerSteps.

Section ResumeHandler.
Context (ext : Collaborators).
Implicit Types (args : validate.UnfinishedStateArgs) (w : World)
  (runState : runstate.RunState) (details : runstate.UnfinishedRunStateDetails).

(** C9.  When the user selects Quit at the resume prompt, the handler
    returns [(true, nil)], its only effects are the load and the question
    (no opcode runs, nothing is saved or deleted, the world is the one it
    started in), and the next invocation, whoever answers it, is asked the
    identical question. *)
Theorem quit_parks_the_run_state args w runState details :
  files w !! validate.RootDir args = Some (Stored runState) ->
  runstate.UnfinishedDetails runState = Some details ->
  validate.answerTo ext runState details = Ok dialog.ResponseQuit ->
  let r := validate.HandleUnfinishedState ext args w in
  value r = (true, None) /\
  after r = w /\
  events r = [EvLoad (validate.RootDir args); validate.promptFor runState details] /\
  (forall (ext' : Collaborators) args',
      validate.RootDir args' = validate.RootDir args ->
      exists rest,
        events (validate.HandleUnfinishedState ext' args' (after r))
        = EvLoad (validate.RootDir args) :: validate.promptFor runState details :: rest).
Proof.
  intros Hfile Hdetails Hanswer r.
  destruct (HandleUnfinishedState_asks ext args w runState details _ Hfile Hdetails Hanswer)
    as (Hv & Ha & He).
  fold r in Hv, Ha, He.
  rewrite (switchResponse_Quit ext) in Hv, Ha, He. run_go.
  repeat split; auto.
  intros ext' args' Hroot. rewrite Ha, <- Hroot.
  apply (HandleUnfinishedState_prompt_first ext'); [ rewrite Hroot | ]; assumption.
Qed.

(** C4.  For every response of the resume prompt that is not one of
    Continue, Skip, Undo, Discard, Quit, the handler returns the
    unexpected-response error; its only effects are the load and the
    question, so no opcode runs and the persisted run state is neither
    saved nor deleted: the world is the one it started in. *)
Theorem unexpected_response_is_fatal args w runState details response :
  files w !! validate.RootDir args = Some (Stored runState) ->
  runstate.UnfinishedDetails runState = Some details ->
  validate.answerTo ext runState details = Ok response ->
  response ∉ dialog.known ->
  let r := validate.HandleUnfinishedState ext args w in
  value r = (false, Some (DialogUnexpectedResponse (dialog.name response))) /\
  after r = w /\
  events r = [EvLoad (validate.RootDir args); validate.promptFor runState details].
Proof.
  intros Hfile Hdetails Hanswer Hother r.
  destruct (HandleUnfinishedState_asks ext args w runState details _ Hfile Hdetails Hanswer)
    as (Hv & Ha & He).
  fold r in Hv, Ha, He.
  rewrite (switchResponse_default ext) in Hv, Ha, He by assumption.
  run_go. auto.
Qed.

(** C6.  When the user selects Discard at the resume prompt, the handler's
    effects are the load, the question and one delete of the run-state
    file: no [interpreter.Execute], so no opcode of the pending, skip or
    undo program runs.  The delete removes the file of the repository root
    (unless the storage itself fails, and then the failure is the error
    returned), and everything else in the world, the working repository
    included, is as it was. *)
Theorem discard_deletes_and_runs_nothing args w runState details :
  files w !! validate.RootDir args = Some (Stored runState) ->
  runstate.UnfinishedDetails runState = Some details ->
  validate.answerTo ext runState details = Ok dialog.ResponseDiscard ->
  let r := validate.HandleUnfinishedState ext args w in
  value r = (false, storageFault w) /\
  events r = [EvLoad (validate.RootDir args); validate.promptFor runState details;
              EvDelete (validate.RootDir args)] /\
  after r = match storageFault w with
            | None => withFiles (delete (validate.RootDir args) (files w)) w
            | Some _ => w
            end /\
  (storageFault w = None -> files (after r) !! validate.RootDir args = None) /\
  repoStatus (after r) = repoStatus w /\
  remotes (after r) = remotes w /\
  previouslyCheckedOut (after r) = previouslyCheckedOut w.
Proof.
  intros Hfile Hdetails Hanswer r.
  destruct (HandleUnfinishedState_asks ext args w runState details _ Hfile Hdetails Hanswer)
    as (Hv & Ha & He).
  fold r in Hv, Ha, He.
  rewrite (switchResponse_Discard ext) in Hv, Ha, He.
  destruct (discardRunstate_run (validate.RootDir args) w) as (Dv & De & Da).
  rewrite Dv in Hv. rewrite De in He. rewrite Da in Ha.
  repeat split; auto.
  - intros Hok. rewrite Ha, Hok. cbn. apply lookup_delete_eq.
  - rewrite Ha. destruct (storageFault w); reflexivity.
  - rewrite Ha. destruct (storageFault w); reflexivity.
  - rewrite Ha. destruct (storageFault w); reflexivity.
Qed.

(** C7.  When the user selects Continue at the resume prompt, the handler
    asks the repository for its status.  If that fails, or if the
    repository still reports unresolved conflicts, it returns an error
    ([ContinueUnresolvedConflicts] for conflicts) without calling the
    interpreter and without touching the persisted run state; only when
    there are no unresolved conflicts does it hand the loaded run state to
    [interpreter.Execute]. *)
Theorem continue_requires_resolved_conflicts args w runState details :
  files w !! validate.RootDir args = Some (Stored runState) ->
  runstate.UnfinishedDetails runState = Some details ->
  validate.answerTo ext runState details = Ok dialog.ResponseContinue ->
  let r := validate.HandleUnfinishedState ext args w in
  let asked := [EvLoad (validate.RootDir args); validate.promptFor runState details;
                EvRepoStatus] in
  match repoStatus w with
  | Failed err =>
      value r = (false, Some err) /\ after r = w /\ events r = asked
  | Ok status =>
      if gitdomain.Conflicts status
      then value r = (false, Some ContinueUnresolvedConflicts)
           /\ after r = w /\ events r = asked
      else
        let x := interpreter_Execute ext (validate.executeArgs runState args) w in
        value r = (true, value x) /\ after r = after x /\
        events r = asked ++ EvExecute (validate.RootDir args) runState :: events x
  end.
Proof.
  intros Hfile Hdetails Hanswer r asked.
  destruct (HandleUnfinishedState_asks ext args w runState details _ Hfile Hdetails Hanswer)
    as (Hv & Ha & He).
  fold r in Hv, Ha, He.
  rewrite (switchResponse_Continue ext) in Hv, Ha, He.
  pose proof (continueRunstate_run ext runState args w) as Hc. cbv zeta in Hc.
  destruct (repoStatus w) as [status | err].
  - destruct (gitdomain.Conflicts status).
    + destruct Hc as (Cv & Ca & Ce). rewrite Cv in Hv. rewrite Ca in Ha. rewrite Ce in He. auto.
    + destruct Hc as (Cv & Ca & Ce). rewrite Cv in Hv. rewrite Ca in Ha. rewrite Ce in He.
      cbv zeta. auto.
  - destruct Hc as (Cv & Ca & Ce). rewrite Cv in Hv. rewrite Ca in Ha. rewrite Ce in He. auto.
Qed.

(** C1, as the code has it.  Whenever the persisted run state of the
    repository root is unfinished ([unfinished_details] present), the
    handler asks the resume prompt right after loading, before any other
    effect; and it lets the requested workflow go ahead ([quit = false],
    [err = nil]) only if the user chose Discard and the run-state file is
    gone.  A persisted run state that is finished is loaded and passed
    over: no prompt, no other effect, and the workflow goes ahead. *)
Theorem unfinished_state_prompts_first args w runState :
  files w !! validate.RootDir args = Some (Stored runState) ->
  let r := validate.HandleUnfinishedState ext args w in
  match runstate.UnfinishedDetails runState with
  | Some details =>
      (exists rest,
          events r
          = EvLoad (validate.RootDir args) :: validate.promptFor runState details :: rest) /\
      (value r = (false, None) ->
       validate.answerTo ext runState details = Ok dialog.ResponseDiscard /\
       files (after r) !! validate.RootDir args = None)
  | None =>
      value r = (false, None) /\ after r = w /\ events r = [EvLoad (validate.RootDir args)]
  end.
Proof.
  intros Hfile r.
  destruct (runstate.UnfinishedDetails runState) as [details | ] eqn:Hdetails.
  2: { subst r. unfold validate.HandleUnfinishedState. run_go.
       rewrite Hfile. run_go. rewrite Hdetails. run_go. auto. }
  split.
  - apply (HandleUnfinishedState_prompt_first ext); assumption.
  - intros Hgo.
    destruct (validate.answerTo ext runState details) as [response | err] eqn:Hanswer.
    2: { unfold r in Hgo.
         rewrite (HandleUnfinishedState_prompt_failed ext args w runState details err) in Hgo
           by assumption.
         discriminate. }
    destruct (HandleUnfinishedState_asks ext args w runState details _ Hfile Hdetails Hanswer)
      as (Hv & Ha & _).
    fold r in Hv, Ha. rewrite Hgo in Hv.
    destruct (response_cases response) as [-> | [-> | [-> | [-> | [-> | Hother]]]]].
    + rewrite (switchResponse_Discard ext) in Hv, Ha.
      destruct (discardRunstate_run (validate.RootDir args) w) as (Dv & _ & Da).
      rewrite Dv in Hv. rewrite Da in Ha.
      assert (storageFault w = None) as Hok by congruence.
      rewrite Hok in Ha. rewrite Ha. cbn. split; [ reflexivity | apply lookup_delete_eq ].
    + rewrite (switchResponse_Continue ext) in Hv.
      pose proof (continueRunstate_run ext runState args w) as Hc. cbv zeta in Hc.
      destruct (repoStatus w) as [status | err];
        [ destruct (gitdomain.Conflicts status) | ];
        destruct Hc as (Cv & _); rewrite Cv in Hv; discriminate.
    + rewrite (switchResponse_Undo ext) in Hv.
      pose proof (abortRunstate_quits ext runState args w) as Hq.
      rewrite <- Hv in Hq. discriminate.
    + rewrite (switchResponse_Skip ext) in Hv.
      pose proof (skipRunstate_quits ext runState args w) as Hq.
      rewrite <- Hv in Hq. discriminate.
    + rewrite (switchResponse_Quit ext) in Hv. run_go. discriminate.
    + rewrite (switchResponse_default ext) in Hv by assumption. run_go. discriminate.
Qed.

End ResumeHandler.

(** Runs of the handler on the halted sync of [scenario]. *)

Lemma quit_parks_the_run_state_witness :
  value (scenario.resume dialog.ResponseQuit scenario.conflicted) = (true, None) /\
  after (scenario.resume dialog.ResponseQuit scenario.conflicted)
  = scenario.haltedWorld scenario.conflicted /\
  events (scenario.resume dialog.ResponseQuit scenario.conflicted)
  = [EvLoad scenario.root; EvAsk "sync" "feature" 1700000000 true] /\
  (forall (ext' : Collaborators) args',
      validate.RootDir args' = scenario.root ->
      exists rest,
        events (validate.HandleUnfinishedState ext' args'
                  (after (scenario.resume dialog.ResponseQuit scenario.conflicted)))
        = EvLoad scenario.root :: EvAsk "sync" "feature" 1700000000 true :: rest).
Proof.
  exact (quit_parks_the_run_state
           (scenario.collaborators (Ok dialog.ResponseQuit)) scenario.args
           (scenario.haltedWorld scenario.conflicted)
           scenario.halted scenario.haltedAt eq_refl eq_refl eq_refl).
Defined.

Lemma unexpected_response_is_fatal_witness :
  (scenario.retry ∉ dialog.known) /\
  value (scenario.resume scenario.retry scenario.conflicted)
  = (false, Some (DialogUnexpectedResponse "retry")) /\
  after (scenario.resume scenario.retry scenario.conflicted)
  = scenario.haltedWorld scenario.conflicted /\
  events (scenario.resume scenario.retry scenario.conflicted)
  = [EvLoad scenario.root; EvAsk "sync" "feature" 1700000000 true].
Proof.
  assert (scenario.retry ∉ dialog.known) as Hother.
  { unfold dialog.known. rewrite !not_elem_of_cons. repeat split; try discriminate.
    apply not_elem_of_nil. }
  split; [ exact Hother | ].
  exact (unexpected_response_is_fatal
           (scenario.collaborators (Ok scenario.retry)) scenario.args
           (scenario.haltedWorld scenario.conflicted)
           scenario.halted scenario.haltedAt scenario.retry
           eq_refl eq_refl eq_refl Hother).
Defined.

Lemma discard_deletes_and_runs_nothing_witness :
  value (scenario.resume dialog.ResponseDiscard scenario.conflicted) = (false, None) /\
  events (scenario.resume dialog.ResponseDiscard scenario.conflicted)
  = [EvLoad scenario.root; EvAsk "sync" "feature" 1700000000 true; EvDelete scenario.root] /\
  after (scenario.resume dialog.ResponseDiscard scenario.conflicted)
  = withFiles (delete scenario.root (files (scenario.haltedWorld scenario.conflicted)))
      (scenario.haltedWorld scenario.conflicted) /\
  (storageFault (scenario.haltedWorld scenario.conflicted) = None ->
   files (after (scenario.resume dialog.ResponseDiscard scenario.conflicted)) !! scenario.root
   = None) /\
  repoStatus (after (scenario.resume dialog.ResponseDiscard scenario.conflicted))
  = Ok scenario.conflicted /\
  remotes (after (scenario.resume dialog.ResponseDiscard scenario.conflicted)) = Ok ["origin"] /\
  previouslyCheckedOut (after (scenario.resume dialog.ResponseDiscard scenario.conflicted))
  = "main".
Proof.
  exact (discard_deletes_and_runs_nothing
           (scenario.collaborators (Ok dialog.ResponseDiscard)) scenario.args
           (scenario.haltedWorld scenario.conflicted)
           scenario.halted scenario.haltedAt eq_refl eq_refl eq_refl).
Defined.

Lemma continue_requires_resolved_conflicts_witness :
  value (scenario.resume dialog.ResponseContinue scenario.conflicted)
  = (false, Some ContinueUnresolvedConflicts) /\
  after (scenario.resume dialog.ResponseContinue scenario.conflicted)
  = scenario.haltedWorld scenario.conflicted /\
  events (scenario.resume dialog.ResponseContinue scenario.conflicted)
  = [EvLoad scenario.root; EvAsk "sync" "feature" 1700000000 true; EvRepoStatus].
Proof.
  exact (continue_requires_resolved_conflicts
           (scenario.collaborators (Ok dialog.ResponseContinue)) scenario.args
           (scenario.haltedWorld scenario.conflicted)
           scenario.halted scenario.haltedAt eq_refl eq_refl eq_refl).
Defined.

Lemma unfinished_state_prompts_first_witness :
  (exists rest,
      events (scenario.resume dialog.ResponseDiscard scenario.clean)
      = EvLoad scenario.root :: EvAsk "sync" "feature" 1700000000 true :: rest) /\
  (value (scenario.resume dialog.ResponseDiscard scenario.clean) = (false, None) ->
   validate.answerTo (scenario.collaborators (Ok dialog.ResponseDiscard))
     scenario.halted scenario.haltedAt = Ok dialog.ResponseDiscard /\
   files (after (scenario.resume dialog.ResponseDiscard scenario.clean)) !! scenario.root = None).
Proof.
  exact (unfinished_state_prompts_first
           (scenario.collaborators (Ok dialog.ResponseDiscard)) scenario.args
           (scenario.haltedWorld scenario.clean) scenario.halted eq_refl).
Defined.

(** C1, as stated, fails: a run-state file that is present but finished is
    loaded and passed over.  No question is asked, the handler signals the
    requested workflow to go ahead, and the file is still there. *)
Lemma finished_state_file_is_passed_over :
  files (scenario.world (Some (Stored scenario.finished)) scenario.clean) !! scenario.root
  = Some (Stored scenario.finished) /\
  value scenario.passOver = (false, None) /\
  events scenario.passOver = [EvLoad scenario.root] /\
  files (after scenario.passOver) !! scenario.root = Some (Stored scenario.finished).
Proof. repeat split; reflexivity. Qed.

(** ** The append planner ([determineAppendConfig], [appendProgram]) *)

(** A lineage in which [branch] has the parent [parent], itself a root. *)
Lemma Ancestors_of_child_of_root (lineage : configdomain.Lineage)
    (branch parent : gitdomain.LocalBranchName) :
  lineage !! branch = Some parent ->
  lineage !! parent = None ->
  configdomain.Ancestors lineage branch = [parent].
Proof.
  intros Hbranch Hparent. unfold configdomain.Ancestors.
  destruct (size lineage) as [ | fuel] eqn:Hsize.
  - apply map_size_empty_inv in Hsize. subst lineage.
    rewrite lookup_empty in Hbranch. discriminate.
  - cbn. rewrite Hbranch. destruct fuel; cbn; [ | rewrite Hparent ]; reflexivity.
Qed.

Section AppendPlanner.
Context (ext : Collaborators).

(** The loop concatenates the sub-sequences in the order of
    [branchesToSync]. *)
Lemma syncBranches_concat (config : cmd.appendConfig) (prog : program.Program) :
  cmd.BranchProgram_appends ext ->
  cmd.syncBranches ext config prog
  = prog ++ concat (map (cmd.syncOf ext config) (cmd.branchesToSync config)).
Proof.
  intros Happ. unfold cmd.syncBranches.
  generalize dependent prog.
  induction (cmd.branchesToSync config) as [ | branch rest IH]; intros prog; cbn.
  - rewrite app_nil_r. reflexivity.
  - rewrite IH, Happ. unfold cmd.syncOf. rewrite <- app_assoc. reflexivity.
Qed.

(** What [appendProgram] hands to [cmdhelpers.Wrap], for any config. *)
Lemma appendProgramBeforeWrap_sequence (config : cmd.appendConfig) :
  cmd.BranchProgram_appends ext ->
  cmd.appendProgramBeforeWrap ext config
  = concat (map (cmd.syncOf ext config) (cmd.branchesToSync config))
    ++ [ opcode.CreateBranchExistingParent (cmd.newBranchParentCandidates config)
           (cmd.targetBranch config);
         opcode.SetExistingParent (cmd.targetBranch config)
           (cmd.newBranchParentCandidates config);
         opcode.Checkout (cmd.targetBranch config) ]
    ++ (if gitdomain.HasOrigin (cmd.remotes config)
           && configdomain.ShouldNewBranchPush (cmd.FullConfig config)
           && configdomain.IsOnline (cmd.FullConfig config)
        then [opcode.OfCreateTrackingBranch {| opcode.Branch := cmd.targetBranch config |}]
        else []).
Proof.
  intros Happ. unfold cmd.appendProgramBeforeWrap, program.Add.
  rewrite syncBranches_concat by assumption. cbn [app].
  destruct (gitdomain.HasOrigin (cmd.remotes config)
            && configdomain.ShouldNewBranchPush (cmd.FullConfig config)
            && configdomain.IsOnline (cmd.FullConfig config));
    rewrite <- ?app_assoc; cbn [app]; rewrite ?app_nil_r; reflexivity.
Qed.

(** C2, as the code has it.  On branch [B] whose lineage is [A] (a root)
    -> [B], with both branches known locally and the new name [D] free,
    appending [D] plans exactly: the sync sub-sequence of [A], then that of
    [B], then create-branch([D]) with the parent candidates [[B; A]], then
    set-parent([D]) with the same candidates, then checkout([D]), followed
    by create-tracking-branch([D]) if and only if the remotes hold an
    origin, new branches are pushed and the run is online.  The program
    [appendProgram] returns is that sequence passed through
    [cmdhelpers.Wrap], with the options built from the config. *)
Theorem append_plans_sync_then_new_branch
    (D A B : gitdomain.LocalBranchName) (repo : execute.OpenRepoResult)
    (dryRun verbose : bool) (w : World) (infoA infoB : gitdomain.BranchInfo)
    (rem : gitdomain.Remotes) (status : gitdomain.RepoStatus)
    (types : configdomain.BranchTypes) (lineage : configdomain.Lineage) :
  let fullConfig := git.FullConfig (execute.Runner repo) in
  let loaded := execute_LoadBranches ext fullConfig repo verbose true true true false w in
  let found := execute.branches (value loaded) in
  let ensured :=
    execute_EnsureKnownBranchAncestry ext B fullConfig (configdomain.All found)
      (configdomain.Types found) (configdomain.MainBranch fullConfig) (after loaded) in
  execute.err (value loaded) = None ->
  execute.exit (value loaded) = false ->
  configdomain.Initial found = B ->
  gitdomain.FindByLocalName (configdomain.All found) A = Some infoA ->
  gitdomain.FindByLocalName (configdomain.All found) B = Some infoB ->
  gitdomain.HasLocalBranch (configdomain.All found) D = false ->
  gitdomain.HasMatchingTrackingBranchFor (configdomain.All found) D = false ->
  remotes (after loaded) = Ok rem ->
  repoStatus (after loaded) = Ok status ->
  value ensured = (types, lineage, None) ->
  lineage !! B = Some A ->
  lineage !! A = None ->
  cmd.BranchProgram_appends ext ->
  exists config,
    value (cmd.determineAppendConfig ext D repo dryRun verbose w)
    = (Some config, execute.branchesSnapshot (value loaded),
       execute.stashSnapshot (value loaded), false, None) /\
    cmd.appendProgramBeforeWrap ext config
    = cmd.syncOf ext config infoA ++ cmd.syncOf ext config infoB
      ++ [ opcode.CreateBranchExistingParent [B; A] D;
           opcode.SetExistingParent D [B; A];
           opcode.Checkout D ]
      ++ (if gitdomain.HasOrigin rem
             && configdomain.NewBranchPush fullConfig
             && negb (configdomain.Offline fullConfig)
          then [opcode.OfCreateTrackingBranch {| opcode.Branch := D |}]
          else []) /\
    cmd.appendProgram ext config
    = cmdhelpers_Wrap ext (cmd.appendProgramBeforeWrap ext config)
        {| cmdhelpers.DryRun := dryRun;
           cmdhelpers.RunInGitRoot := true;
           cmdhelpers.StashOpenChanges := gitdomain.OpenChanges status;
           cmdhelpers.PreviousBranchCandidates := [B; previouslyCheckedOut (after loaded)] |}.
Proof.
  cbv zeta.
  destruct (execute_LoadBranches ext (git.FullConfig (execute.Runner repo)) repo verbose
              true true true false w) as [[found snap stash ex er] w1 ev1] eqn:Hloaded.
  cbn [value after events execute.branches execute.err execute.exit
       execute.branchesSnapshot execute.stashSnapshot].
  destruct (execute_EnsureKnownBranchAncestry ext B (git.FullConfig (execute.Runner repo))
              (configdomain.All found) (configdomain.Types found)
              (configdomain.MainBranch (git.FullConfig (execute.Runner repo))) w1)
    as [ensuredValue w2 ev2] eqn:Hensured.
  cbn [value after events].
  intros -> -> Hinitial HfindA HfindB Hlocal Htracking Hrem Hstatus -> HB HA Happ.
  pose proof (Ancestors_of_child_of_root lineage B A HB HA) as Hanc.
  eexists. split.
  - unfold cmd.determineAppendConfig. run_goal. rewrite Hloaded.
    cbn [value after events execute.branches execute.err execute.exit
         execute.branchesSnapshot execute.stashSnapshot notNil orb].
    rewrite Hrem. cbn [execute.Remotes execute.Check].
    rewrite Hstatus. cbn [execute.RepoStatus execute.Check].
    rewrite Hlocal, Htracking, Hinitial, Hensured.
    cbn [value after events configdomain.All configdomain.Initial].
    unfold configdomain.BranchAndAncestors. rewrite Hanc. cbn [app gitdomain.Select].
    rewrite HfindA, HfindB.
    cbn [execute.BranchesSyncStatus execute.Check fst snd rev app value].
    reflexivity.
  - split; [ | reflexivity ].
    rewrite appendProgramBeforeWrap_sequence by assumption.
    cbn [cmd.branchesToSync cmd.newBranchParentCandidates cmd.targetBranch cmd.remotes
         cmd.FullConfig map concat].
    rewrite <- app_assoc, app_nil_r. reflexivity.
Qed.
End AppendPlanner.

(** The planner of [scenario] only appends. *)
Lemma scenario_BranchProgram_appends : cmd.BranchProgram_appends scenario.ext.
Proof.
  intros branch config all types remotes pushBranch prog.
  cbn [sync_BranchProgram scenario.ext scenario.collaborators].
  unfold scenario.BranchProgram. reflexivity.
Qed.

Lemma append_plans_sync_then_new_branch_witness :
  exists config,
    value (cmd.determineAppendConfig scenario.ext "feature-2" scenario.repo false false
             (scenario.appendWorld scenario.dirty))
    = (Some config, scenario.snapshot, 0, false, None) /\
    cmd.appendProgramBeforeWrap scenario.ext config
    = cmd.syncOf scenario.ext config scenario.main
      ++ cmd.syncOf scenario.ext config scenario.feature
      ++ [ opcode.CreateBranchExistingParent ["feature"; "main"] "feature-2";
           opcode.SetExistingParent "feature-2" ["feature"; "main"];
           opcode.Checkout "feature-2" ]
      ++ [opcode.OfCreateTrackingBranch {| opcode.Branch := "feature-2" |}] /\
    cmd.appendProgram scenario.ext config
    = scenario.Wrap (cmd.appendProgramBeforeWrap scenario.ext config)
        {| cmdhelpers.DryRun := false;
           cmdhelpers.RunInGitRoot := true;
           cmdhelpers.StashOpenChanges := true;
           cmdhelpers.PreviousBranchCandidates := ["feature"; "main"] |}.
Proof.
  exact (append_plans_sync_then_new_branch scenario.ext
           "feature-2" "main" "feature" scenario.repo false false
           (scenario.appendWorld scenario.dirty) scenario.main scenario.feature
           ["origin"] scenario.dirty ["main"] {[ "feature" := "main" ]}
           eq_refl eq_refl eq_refl eq_refl eq_refl eq_refl eq_refl eq_refl eq_refl
           eq_refl eq_refl eq_refl scenario_BranchProgram_appends).
Defined.

(** C2, as stated, fails: the program the append command produces is the
    planned sequence inside the bracket of [cmdhelpers.Wrap].  With
    uncommitted changes in the work tree it starts with the stash and ends
    with the return to the previous branch and the restore. *)
Lemma appended_program_is_wrapped :
  value (cmd.determineAppendConfig scenario.ext "feature-2" scenario.repo false false
           (scenario.appendWorld scenario.dirty))
  = (Some (scenario.appendConfig scenario.dirty), scenario.snapshot, 0, false, None) /\
  cmd.appendProgramBeforeWrap scenario.ext (scenario.appendConfig scenario.dirty)
  = scenario.plannedAppend /\
  cmd.appendProgram scenario.ext (scenario.appendConfig scenario.dirty)
  = opcode.Planned "StashOpenChanges" []
    :: scenario.plannedAppend
    ++ [ opcode.Planned "PreserveCheckoutHistory" ["feature"; "main"];
         opcode.Planned "RestoreOpenChanges" [] ] /\
  cmd.appendProgram scenario.ext (scenario.appendConfig scenario.dirty)
  <> scenario.plannedAppend.
Proof.
  repeat split; try reflexivity.
  discriminate.
Qed.

(** ** The ship planner ([ship.go]) *)

Section ShipPlanner.
Context (ext : ship.Collaborators).

(** Without a driver, [determinePullRequestInfo] fails only where one of
    its two queries fails; otherwise it hands back the empty info. *)
Lemma determinePullRequestInfo_without_driver (branch parentBranch : string)
    (repo : ship.ProdRepo) :
  ship.determinePullRequestInfo branch parentBranch repo None
  = match ship.HasOrigin repo with
    | Failed err => Failed err
    | Ok false => Ok ship.emptyPullRequestInfo
    | Ok true =>
        match ship.IsOffline repo with
        | Failed err => Failed err
        | Ok _ => Ok ship.emptyPullRequestInfo
        end
    end.
Proof.
  unfold ship.determinePullRequestInfo.
  destruct (ship.HasOrigin repo) as [[ | ] | err]; cbn; try reflexivity.
  destruct (ship.IsOffline repo) as [[ | ] | err]; reflexivity.
Qed.

Lemma determinePullRequestInfo_without_driver_empty (branch parentBranch : string)
    (repo : ship.ProdRepo) (info : ship.PullRequestInfo) :
  ship.determinePullRequestInfo branch parentBranch repo None = Ok info ->
  info = ship.emptyPullRequestInfo.
Proof.
  rewrite determinePullRequestInfo_without_driver.
  destruct (ship.HasOrigin repo) as [[ | ] | err]; try congruence.
  destruct (ship.IsOffline repo) as [[ | ] | err]; congruence.
Qed.

(** The loop over the child branches appends one set-parent step each. *)
Lemma setParent_loop (children : list string) (parent : string) (result : ship.StepList) :
  fold_left (fun result child => result ++ [ship.SetParentBranchStep child parent])
    children result
  = result ++ map (fun child => ship.SetParentBranchStep child parent) children.
Proof.
  revert result. induction children as [ | child rest IH]; intros result; cbn.
  - rewrite app_nil_r. reflexivity.
  - rewrite IH, <- app_assoc. reflexivity.
Qed.

(** With [canShipWithDriver] false the steps of [shipStepList] squash-merge
    locally and hold no driver step. *)
Lemma shipOwnSteps_without_driver (config : ship.shipConfig) (commitMessage : string) :
  ship.canShipWithDriver config = false ->
  ship.SquashMergeBranchStep (ship.branchToShip config) commitMessage
    ∈ ship.shipOwnSteps config commitMessage /\
  forallb (fun step => negb (ship.isDriverMerge step)) (ship.shipOwnSteps config commitMessage)
  = true.
Proof.
  intros Hcan. unfold ship.shipOwnSteps. rewrite Hcan. cbn [app orb].
  rewrite setParent_loop.
  split.
  - destruct (ship.hasOrigin config && negb (ship.isOffline config));
      destruct (ship.hasTrackingBranch config
                && (length (ship.childBranches config) =? 0)%nat
                && negb (ship.isOffline config));
      destruct (ship.deleteOriginBranch config);
      destruct (negb (ship.isShippingInitialBranch config));
      cbn [app]; rewrite ?elem_of_app, ?elem_of_cons; tauto.
  - assert (forallb (fun step => negb (ship.isDriverMerge step))
              (map (fun child => ship.SetParentBranchStep child (ship.branchToMergeInto config))
                 (ship.childBranches config)) = true) as Hchildren.
    { induction (ship.childBranches config); cbn; auto. }
    destruct (ship.hasOrigin config && negb (ship.isOffline config));
      destruct (ship.hasTrackingBranch config
                && (length (ship.childBranches config) =? 0)%nat
                && negb (ship.isOffline config));
      destruct (ship.deleteOriginBranch config);
      destruct (negb (ship.isShippingInitialBranch config));
      cbn [app];
      repeat first [ rewrite forallb_app | rewrite Hchildren
                   | progress cbn [forallb negb ship.isDriverMerge andb] ];
      reflexivity.
Qed.

(** A config that [determineShipConfig] returns without a driver cannot
    ship with the driver. *)
Lemma determineShipConfig_without_driver (args : list string) (repo repo' : ship.ProdRepo)
    (config : ship.shipConfig) :
  ship.determineShipConfig ext args None repo = ship.Returns (Ok (config, repo')) ->
  ship.canShipWithDriver config = false.
Proof.
  unfold ship.determineShipConfig, ship.try, ship.check, ship.andThen.
  intros H.
  repeat match type of H with
         | context [ship.determinePullRequestInfo ?b ?p ?r None] =>
             destruct (ship.determinePullRequestInfo b p r None) as [info | err] eqn:Hinfo;
             [ apply determinePullRequestInfo_without_driver_empty in Hinfo; subst info | ]
         | context [match ?x with _ => _ end] => destruct x eqn:?; try discriminate H
         end.
  all: injection H as <- _; reflexivity.
Qed.

(** C3, as the code has it.  When no hosting driver is configured,
    [determinePullRequestInfo] does not fail for the lack of it: it hands
    back the empty pull-request info and no error (an error only where one
    of its two repository queries fails).  Every config that
    [determineShipConfig] then returns has [canShipWithDriver] false, and
    [shipStepList] plans the local squash merge of the branch and no step
    that merges through the driver. *)
Theorem missing_driver_plans_local_squash_merge (args : list string) (commitMessage : string)
    (repo repo' : ship.ProdRepo) (config : ship.shipConfig) :
  ship.determineShipConfig ext args None repo = ship.Returns (Ok (config, repo')) ->
  (forall branch parentBranch r,
      match ship.determinePullRequestInfo branch parentBranch r None with
      | Ok info => info = ship.emptyPullRequestInfo
      | Failed err => ship.HasOrigin r = Failed err \/ ship.IsOffline r = Failed err
      end) /\
  ship.canShipWithDriver config = false /\
  ship.SquashMergeBranchStep (ship.branchToShip config) commitMessage
    ∈ ship.shipOwnSteps config commitMessage /\
  forallb (fun step => negb (ship.isDriverMerge step)) (ship.shipOwnSteps config commitMessage)
  = true /\
  match ship.syncBranchSteps ext (ship.branchToMergeInto config) true repo',
        ship.syncBranchSteps ext (ship.branchToShip config) false repo' with
  | Ok syncInto, Ok syncShip =>
      ship.shipStepList ext config commitMessage repo'
      = ship.Wrap ext (syncInto ++ syncShip ++ ship.shipOwnSteps config commitMessage)
          {| ship.RunInGitRoot := true;
             ship.StashOpenChanges := negb (ship.isShippingInitialBranch config) |} repo'
  | Failed err, _ | Ok _, Failed err =>
      ship.shipStepList ext config commitMessage repo' = ([], Some err)
  end.
Proof.
  intros Hconfig.
  pose proof (determineShipConfig_without_driver args repo repo' config Hconfig) as Hcan.
  destruct (shipOwnSteps_without_driver config commitMessage Hcan) as (Hsquash & Hnone).
  repeat split; try assumption.
  - intros branch parentBranch r.
    rewrite determinePullRequestInfo_without_driver.
    destruct (ship.HasOrigin r) as [[ | ] | err]; auto.
    destruct (ship.IsOffline r) as [[ | ] | err]; auto.
  - unfold ship.shipStepList.
    destruct (ship.syncBranchSteps ext (ship.branchToMergeInto config) true repo');
      [ | reflexivity ].
    destruct (ship.syncBranchSteps ext (ship.branchToShip config) false repo');
      [ | reflexivity ].
    cbn [app]. rewrite <- app_assoc. reflexivity.
Qed.

End ShipPlanner.

Lemma missing_driver_plans_local_squash_merge_witness :
  (forall branch parentBranch r,
      match ship.determinePullRequestInfo branch parentBranch r None with
      | Ok info => info = ship.emptyPullRequestInfo
      | Failed err => ship.HasOrigin r = Failed err \/ ship.IsOffline r = Failed err
      end) /\
  ship.canShipWithDriver scenario.shipConfig = false /\
  ship.SquashMergeBranchStep "feature" "done" ∈ ship.shipOwnSteps scenario.shipConfig "done" /\
  forallb (fun step => negb (ship.isDriverMerge step)) (ship.shipOwnSteps scenario.shipConfig "done")
  = true /\
  ship.shipStepList scenario.shipCollaborators scenario.shipConfig "done" scenario.prodRepo
  = ([ship.OtherStep "sync" ["main"]; ship.OtherStep "sync" ["feature"]]
     ++ ship.shipOwnSteps scenario.shipConfig "done", None).
Proof.
  exact (missing_driver_plans_local_squash_merge scenario.shipCollaborators [] "done"
           scenario.prodRepo scenario.prodRepo scenario.shipConfig eq_refl).
Defined.

(** C3, as stated, fails: with no driver configured the ship of [feature] is
    planned without error, with the squash merge in place of the driver's
    merge, and handed to [runstate.Execute]. *)
Lemma ship_without_driver_is_planned_and_run :
  ship.hosting_NewDriver scenario.shipCollaborators scenario.prodRepo = Ok None /\
  ship.shipCmdRun scenario.shipCollaborators [] "done" scenario.prodRepo
  = {| ship.executed :=
         Some (ship.New "ship"
                 [ ship.OtherStep "sync" ["main"];
                   ship.OtherStep "sync" ["feature"];
                   ship.EnsureHasShippableChangesStep "feature";
                   ship.CheckoutBranchStep "main";
                   ship.SquashMergeBranchStep "feature" "done";
                   ship.PushBranchStep "main" true;
                   ship.DeleteOriginBranchStep "feature" true;
                   ship.DeleteLocalBranchStep "feature";
                   ship.DeleteParentBranchStep "feature" ]);
       ship.ending := ship.Returns tt |}.
Proof. split; reflexivity. Qed.

(** ** The eligibility check of ship *)

(** C10.  In the ship workflow's eligibility check, for a branch whose
    configured parent is neither the main branch nor a perennial branch, the
    check slices [ancestors[1:]] and reads element 0 of the slice.  With at
    least two ancestors this is in bounds and the check ends the process
    with the "ship the oldest ancestor first" error, naming the second
    ancestor; with one ancestor the read of element 0 is out of range, and
    with none the slice expression itself is: the check reaches its error
    exactly when the ancestor list has two entries or more, and panics
    exactly when it has fewer. *)
Theorem oldest_ancestor_needs_two_ancestors (branch : string) (repo : ship.ProdRepo) :
  ship.IsMainBranch repo (ship.ParentBranch repo branch) = false ->
  ship.IsPerennialBranch repo (ship.ParentBranch repo branch) = false ->
  let checked := ship.ensureParentBranchIsMainOrPerennialBranch branch repo in
  match ship.AncestorBranches repo branch with
  | [] => checked = ship.Panics (ship.SliceBoundsOutOfRange 1 0)
  | [_] => checked = ship.Panics (ship.IndexOutOfRange 0 0)
  | _ :: oldest :: rest =>
      checked = ship.Exits (ShipOldestAncestorFirst (oldest :: rest) oldest)
  end /\
  ((exists err, checked = ship.Exits err) <-> 2 <= length (ship.AncestorBranches repo branch)) /\
  ((exists p, checked = ship.Panics p) <-> length (ship.AncestorBranches repo branch) < 2).
Proof.
  intros Hmain Hperennial checked. subst checked.
  unfold ship.ensureParentBranchIsMainOrPerennialBranch.
  rewrite Hmain, Hperennial. cbn [negb andb].
  destruct (ship.AncestorBranches repo branch) as [ | first [ | oldest rest]]; cbn.
  - split; [ reflexivity | ]. split; split.
    + intros [err H]; discriminate.
    + lia.
    + lia.
    + eexists; reflexivity.
  - split; [ reflexivity | ]. split; split.
    + intros [err H]; discriminate.
    + lia.
    + lia.
    + eexists; reflexivity.
  - split; [ reflexivity | ]. split; split.
    + lia.
    + eexists; reflexivity.
    + intros [p H]; discriminate.
    + lia.
Qed.

Lemma oldest_ancestor_needs_two_ancestors_witness :
  ship.ensureParentBranchIsMainOrPerennialBranch "feature" (scenario.nestedRepo ["hotfix"])
  = ship.Panics (ship.IndexOutOfRange 0 0) /\
  ((exists err, ship.ensureParentBranchIsMainOrPerennialBranch "feature"
                  (scenario.nestedRepo ["hotfix"]) = ship.Exits err)
   <-> 2 <= 1) /\
  ((exists p, ship.ensureParentBranchIsMainOrPerennialBranch "feature"
                (scenario.nestedRepo ["hotfix"]) = ship.Panics p)
   <-> 1 < 2).
Proof.
  exact (oldest_ancestor_needs_two_ancestors "feature" (scenario.nestedRepo ["hotfix"])
           eq_refl eq_refl).
Defined.

(** ** Pre-flight validation ([executeAppend], [shipCmd]) *)

(** [determineAppendConfig] hands back a [nil] config only together with an
    error or the signal to exit, so [executeAppend] never reads a [nil]
    config. *)
Lemma determineAppendConfig_nil_config (ext : Collaborators) (targetBranch : string)
    (repo : execute.OpenRepoResult) (dryRun verbose : bool) (w : World) :
  let '(config, _, _, exit, err) :=
    value (cmd.determineAppendConfig ext targetBranch repo dryRun verbose w) in
  config = None -> notNil err || exit = true.
Proof.
  unfold cmd.determineAppendConfig. run_goal.
  destruct (execute_LoadBranches ext (git.FullConfig (execute.Runner repo)) repo verbose
              true true true false w) as [[found snap stash ex er] w1 ev1].
  cbn [value after events execute.branches execute.err execute.exit
       execute.branchesSnapshot execute.stashSnapshot].
  destruct (notNil er || ex) eqn:Hstop; cbn [value]; [ auto | ].
  destruct (remotes w1) as [rem | errRemotes];
    cbn [execute.Remotes execute.Check];
    destruct (repoStatus w1) as [status | errStatus];
    cbn [execute.RepoStatus execute.Check value notNil orb]; auto.
  destruct (execute_EnsureKnownBranchAncestry ext _ _ _ _ _ w1)
    as [[[types lineage] [errEnsured | ]] w2 ev2];
    cbn [value notNil orb]; auto.
  destruct (execute.BranchesSyncStatus _ _) as [branchesToSync fc].
  cbn [value]. discriminate.
Qed.





(** ** The continuation of create-tracking-branch *)

(** C8.  For every [CreateTrackingBranch] opcode, its continue program is
    the one-element sequence holding that same opcode, which is the default
    continuation ("re-run itself"): no other opcode is inserted. *)
Theorem create_tracking_branch_continues_with_itself (self : opcode.CreateTrackingBranch) :
  opcode.CreateContinueProgram self = [opcode.OfCreateTrackingBranch self] /\
  opcode.CreateContinueProgram self
  = opcode.defaultContinuation (opcode.OfCreateTrackingBranch self) /\
  length (opcode.CreateContinueProgram self) = 1.
Proof. repeat split; reflexivity. Qed.

(** * Further properties of the embedded code *)

(** ** The resume handler, on the paths around the prompt *)

Section ResumeHandlerPaths.
Context (ext : Collaborators).
Implicit Types (args : validate.UnfinishedStateArgs) (w : World)
  (runState : runstate.RunState) (details : runstate.UnfinishedRunStateDetails).

(** X1.  When loading the run state fails, the handler returns the load
    problem that wraps the failure and tells the caller not to quit; when
    there is no run state, it returns no error.  Either way its only effect
    is the load: nothing is asked, run or deleted. *)
Theorem load_outcome_without_state args w :
  let r := validate.HandleUnfinishedState ext args w in
  match value (statefile.Load (validate.RootDir args) w) with
  | Failed err =>
      value r = (false, Some (RunstateLoadProblem err)) /\
      after r = w /\ events r = [EvLoad (validate.RootDir args)]
  | Ok None =>
      value r = (false, None) /\
      after r = w /\ events r = [EvLoad (validate.RootDir args)]
  | Ok (Some _) => True
  end.
Proof.
  unfold validate.HandleUnfinishedState. run_go.
  destruct (files w !! validate.RootDir args) as [[ | runState] | ]; run_go; auto.
Qed.

(** X2.  When the prompt itself fails, the handler hands its error back
    with [quit = false]; the effects are the load and the question, the
    interpreter is not called and the persisted run state is untouched. *)
Theorem prompt_failure_runs_nothing args w runState details err :
  files w !! validate.RootDir args = Some (Stored runState) ->
  runstate.UnfinishedDetails runState = Some details ->
  validate.answerTo ext runState details = Failed err ->
  let r := validate.HandleUnfinishedState ext args w in
  value r = (false, Some err) /\
  after r = w /\
  events r = [EvLoad (validate.RootDir args); validate.promptFor runState details].
Proof.
  intros Hfile Hdetails Hanswer.
  unfold validate.HandleUnfinishedState, validate.AskHowToHandleUnfinishedRunState,
    validate.answerTo in *.
  run_go. rewrite Hfile. run_go. rewrite Hdetails. run_go. rewrite Hanswer. auto.
Qed.

(** X3.  Undo and Skip go to the interpreter without asking the repository
    for its status (unlike Continue, they run even with unresolved
    conflicts), with the abort run state and the skip run state made from
    the loaded one; they tell the caller to quit whatever the interpreter
    returns, and its error is the handler's error. *)
Theorem undo_and_skip_run_without_status_check args w runState details :
  files w !! validate.RootDir args = Some (Stored runState) ->
  runstate.UnfinishedDetails runState = Some details ->
  let r := validate.HandleUnfinishedState ext args w in
  (validate.answerTo ext runState details = Ok dialog.ResponseUndo ->
   let resumed := runstate_CreateAbortRunState ext runState in
   let x := interpreter_Execute ext (validate.executeArgs resumed args) w in
   value r = (true, value x) /\ after r = after x /\
   events r = [EvLoad (validate.RootDir args); validate.promptFor runState details;
               EvExecute (validate.RootDir args) resumed] ++ events x) /\
  (validate.answerTo ext runState details = Ok dialog.ResponseSkip ->
   let resumed := runstate_CreateSkipRunState ext runState in
   let x := interpreter_Execute ext (validate.executeArgs resumed args) w in
   value r = (true, value x) /\ after r = after x /\
   events r = [EvLoad (validate.RootDir args); validate.promptFor runState details;
               EvExecute (validate.RootDir args) resumed] ++ events x).
Proof.
  intros Hfile Hdetails r. split; intros Hanswer resumed x;
    destruct (HandleUnfinishedState_asks ext args w runState details _ Hfile Hdetails Hanswer)
      as (Hv & Ha & He);
    fold r in Hv, Ha, He; rewrite Hv, Ha, He.
  - rewrite (switchResponse_Undo ext). unfold validate.abortRunstate. run_goal.
    fold resumed.
    change (interpreter.RootDir (validate.executeArgs resumed args))
      with (validate.RootDir args).
    change (interpreter.RunState (validate.executeArgs resumed args)) with resumed.
    subst x. destruct (interpreter_Execute ext (validate.executeArgs resumed args) w).
    run_goal. auto.
  - rewrite (switchResponse_Skip ext). unfold validate.skipRunstate. run_goal.
    fold resumed.
    change (interpreter.RootDir (validate.executeArgs resumed args))
      with (validate.RootDir args).
    change (interpreter.RunState (validate.executeArgs resumed args)) with resumed.
    subst x. destruct (interpreter_Execute ext (validate.executeArgs resumed args) w).
    run_goal. auto.
Qed.

(** X4.  Whenever the handler tells the caller to go on ([quit = false]),
    it has not called the interpreter, and the world is the one it started
    in or that world without the run-state file of the root: a resumed
    program and the newly requested one never both run. *)
Theorem go_ahead_means_nothing_ran args w :
  let r := validate.HandleUnfinishedState ext args w in
  (value r).1 = false ->
  forallb (fun ev => negb (isExecute ev)) (events r) = true /\
  (after r = w \/ after r = withFiles (delete (validate.RootDir args) (files w)) w).
Proof.
  intros r Hgo.
  destruct (files w !! validate.RootDir args) as [[ | runState] | ] eqn:Hfile.
  1, 3: subst r; unfold validate.HandleUnfinishedState in *; run_go;
        rewrite Hfile in *; run_go; auto.
  destruct (runstate.UnfinishedDetails runState) as [details | ] eqn:Hdetails.
  2: { subst r. unfold validate.HandleUnfinishedState in *. run_go.
       rewrite Hfile in *. run_go. rewrite Hdetails in *. run_go. auto. }
  destruct (validate.answerTo ext runState details) as [response | err] eqn:Hanswer.
  2: { subst r. unfold validate.HandleUnfinishedState,
         validate.AskHowToHandleUnfinishedRunState, validate.answerTo in *.
       run_go. rewrite Hfile in *. run_go. rewrite Hdetails in *. run_go.
       rewrite Hanswer in *. run_go. auto. }
  destruct (HandleUnfinishedState_asks ext args w runState details _ Hfile Hdetails Hanswer)
    as (Hv & Ha & He).
  fold r in Hv, Ha, He. rewrite Hv in Hgo. rewrite Ha, He. clear Hv Ha He.
  cbn [forallb isExecute negb andb validate.promptFor].
  destruct (response_cases response) as [-> | [-> | [-> | [-> | [-> | Hother]]]]].
  - rewrite (switchResponse_Discard ext) in *.
    destruct (discardRunstate_run (validate.RootDir args) w) as (_ & De & Da).
    rewrite De, Da. cbn. destruct (storageFault w); auto.
  - rewrite (switchResponse_Continue ext) in *.
    pose proof (continueRunstate_run ext runState args w) as Hc. cbv zeta in Hc.
    destruct (repoStatus w) as [status | err];
      [ destruct (gitdomain.Conflicts status) | ];
      destruct Hc as (Cv & Ca & Ce); rewrite ?Ca, ?Ce; cbn; auto.
    rewrite Cv in Hgo. discriminate.
  - rewrite (switchResponse_Undo ext) in Hgo.
    rewrite (abortRunstate_quits ext) in Hgo. discriminate.
  - rewrite (switchResponse_Skip ext) in Hgo.
    rewrite (skipRunstate_quits ext) in Hgo. discriminate.
  - rewrite (switchResponse_Quit ext) in Hgo. discriminate.
  - rewrite (switchResponse_default ext) by assumption. run_goal. auto.
Qed.

(** X5.  After a Discard that the storage carried out, the way is clear:
    the next invocation for the same root, whoever answers it, loads
    nothing, asks nothing and lets its workflow go ahead; and the run-state
    files of all other roots are as they were. *)
Theorem discard_clears_the_way args w runState details :
  files w !! validate.RootDir args = Some (Stored runState) ->
  runstate.UnfinishedDetails runState = Some details ->
  validate.answerTo ext runState details = Ok dialog.ResponseDiscard ->
  storageFault w = None ->
  let r := validate.HandleUnfinishedState ext args w in
  (forall (ext' : Collaborators) args',
      validate.RootDir args' = validate.RootDir args ->
      let next := validate.HandleUnfinishedState ext' args' (after r) in
      value next = (false, None) /\ after next = after r /\
      events next = [EvLoad (validate.RootDir args)]) /\
  (forall root' : gitdomain.RepoRootDir,
      root' <> validate.RootDir args -> files (after r) !! root' = files w !! root').
Proof.
  intros Hfile Hdetails Hanswer Hok r.
  destruct (HandleUnfinishedState_asks ext args w runState details _ Hfile Hdetails Hanswer)
    as (_ & Ha & _).
  fold r in Ha. rewrite (switchResponse_Discard ext) in Ha.
  destruct (discardRunstate_run (validate.RootDir args) w) as (_ & _ & Da).
  rewrite Da, Hok in Ha. rewrite Ha. split.
  - intros ext' args' Hroot. unfold validate.HandleUnfinishedState. run_goal.
    rewrite Hroot. cbn [files withFiles]. rewrite lookup_delete_eq. run_goal. auto.
  - intros root' Hother. cbn [files withFiles]. apply lookup_delete_ne. congruence.
Qed.

End ResumeHandlerPaths.

Lemma prompt_failure_runs_nothing_witness :
  value (validate.HandleUnfinishedState
           (scenario.collaborators (Failed (ExternalError "prompt closed")))
           scenario.args (scenario.haltedWorld scenario.clean))
  = (false, Some (ExternalError "prompt closed")) /\
  after (validate.HandleUnfinishedState
           (scenario.collaborators (Failed (ExternalError "prompt closed")))
           scenario.args (scenario.haltedWorld scenario.clean))
  = scenario.haltedWorld scenario.clean /\
  events (validate.HandleUnfinishedState
            (scenario.collaborators (Failed (ExternalError "prompt closed")))
            scenario.args (scenario.haltedWorld scenario.clean))
  = [EvLoad scenario.root; EvAsk "sync" "feature" 1700000000 true].
Proof.
  exact (prompt_failure_runs_nothing
           (scenario.collaborators (Failed (ExternalError "prompt closed")))
           scenario.args (scenario.haltedWorld scenario.clean)
           scenario.halted scenario.haltedAt (ExternalError "prompt closed")
           eq_refl eq_refl eq_refl).
Defined.

Lemma undo_and_skip_run_without_status_check_witness :
  value (scenario.resume dialog.ResponseSkip scenario.conflicted) = (true, None) /\
  events (scenario.resume dialog.ResponseSkip scenario.conflicted)
  = [ EvLoad scenario.root; EvAsk "sync" "feature" 1700000000 true;
      EvExecute scenario.root scenario.halted;
      EvRun (opcode.Planned "ContinueRebase" []);
      EvRun (opcode.Planned "Push" ["feature"]);
      EvDelete scenario.root ].
Proof.
  destruct (proj2 (undo_and_skip_run_without_status_check
                     (scenario.collaborators (Ok dialog.ResponseSkip)) scenario.args
                     (scenario.haltedWorld scenario.conflicted)
                     scenario.halted scenario.haltedAt eq_refl eq_refl) eq_refl)
    as (Hv & _ & He).
  split; [ exact Hv | exact He ].
Defined.

Lemma go_ahead_means_nothing_ran_witness :
  (value (scenario.resume dialog.ResponseDiscard scenario.conflicted)).1 = false /\
  forallb (fun ev => negb (isExecute ev))
    (events (scenario.resume dialog.ResponseDiscard scenario.conflicted)) = true.
Proof.
  split; [ reflexivity | ].
  exact (proj1 (go_ahead_means_nothing_ran
                  (scenario.collaborators (Ok dialog.ResponseDiscard)) scenario.args
                  (scenario.haltedWorld scenario.conflicted) eq_refl)).
Defined.

Lemma discard_clears_the_way_witness :
  value (validate.HandleUnfinishedState (scenario.collaborators (Ok dialog.ResponseContinue))
           scenario.args (after (scenario.resume dialog.ResponseDiscard scenario.conflicted)))
  = (false, None) /\
  events (validate.HandleUnfinishedState (scenario.collaborators (Ok dialog.ResponseContinue))
            scenario.args (after (scenario.resume dialog.ResponseDiscard scenario.conflicted)))
  = [EvLoad scenario.root].
Proof.
  destruct (proj1 (discard_clears_the_way
                     (scenario.collaborators (Ok dialog.ResponseDiscard)) scenario.args
                     (scenario.haltedWorld scenario.conflicted)
                     scenario.halted scenario.haltedAt eq_refl eq_refl eq_refl eq_refl)
                  (scenario.collaborators (Ok dialog.ResponseContinue)) scenario.args eq_refl)
    as (Hv & _ & He).
  split; [ exact Hv | exact He ].
Defined.

(** ** The append command, stage by stage *)

(** The branches [Select] finds carry the names it was given, in their
    order. *)
Lemma Select_names (all : gitdomain.BranchInfos) (names : gitdomain.LocalBranchNames)
    (infos : gitdomain.BranchInfos) :
  gitdomain.Select all names = (infos, None) ->
  map gitdomain.LocalName infos = names.
Proof.
  revert infos. induction names as [ | name rest IH]; intros infos; cbn.
  - intros [= <-]. reflexivity.
  - unfold gitdomain.FindByLocalName.
    destruct (find _ all) as [bi | ] eqn:Hfind; [ | discriminate ].
    apply List.find_some in Hfind as [_ Hname]. apply String.eqb_eq in Hname.
    destruct (gitdomain.Select all rest) as [found err].
    intros [= <- ->]. cbn. rewrite Hname, (IH found); reflexivity.
Qed.

Section AppendStages.
Context (ext : Collaborators).

(** What a config returned without error holds, read off the returns of
    [determineAppendConfig]. *)
Lemma returned_append_config_facts (targetBranch : gitdomain.LocalBranchName)
    (repo : execute.OpenRepoResult) (dryRun verbose : bool) (w : World)
    (config : cmd.appendConfig) (snap : gitdomain.BranchesStatus) (stash : gitdomain.StashSize) :
  value (cmd.determineAppendConfig ext targetBranch repo dryRun verbose w)
  = (Some config, snap, stash, false, None) ->
  cmd.targetBranch config = targetBranch /\
  gitdomain.HasLocalBranch (configdomain.All (cmd.branches config)) targetBranch = false /\
  gitdomain.HasMatchingTrackingBranchFor (configdomain.All (cmd.branches config)) targetBranch
  = false /\
  map gitdomain.LocalName (cmd.branchesToSync config)
  = rev (cmd.newBranchParentCandidates config) /\
  cmd.parentBranch config = configdomain.Initial (cmd.branches config) /\
  (exists ancestors,
      cmd.newBranchParentCandidates config = cmd.parentBranch config :: ancestors) /\
  cmd.dryRun config = dryRun.
Proof.
  unfold cmd.determineAppendConfig. run_goal.
  destruct (execute_LoadBranches ext (git.FullConfig (execute.Runner repo)) repo verbose
              true true true false w) as [[found snap0 stash0 ex er] w1 ev1].
  cbn [value after events execute.branches execute.err execute.exit
       execute.branchesSnapshot execute.stashSnapshot].
  destruct (notNil er || ex); cbn [value]; [ discriminate | ].
  destruct (remotes w1) as [rem | errRemotes];
    cbn [execute.Remotes execute.Check];
    destruct (repoStatus w1) as [status | errStatus];
    cbn [execute.RepoStatus execute.Check value]; try discriminate.
  destruct (execute_EnsureKnownBranchAncestry ext _ _ _ _ _ w1)
    as [[[types lineage] [errEnsured | ]] w2 ev2];
    cbn [value]; try discriminate.
  cbn [configdomain.All configdomain.Initial].
  destruct (gitdomain.Select (configdomain.All found)
              (configdomain.BranchAndAncestors lineage (configdomain.Initial found)))
    as [selected selectErr] eqn:Hselect.
  destruct (gitdomain.HasLocalBranch (configdomain.All found) targetBranch) eqn:Hlocal;
    destruct (gitdomain.HasMatchingTrackingBranchFor (configdomain.All found) targetBranch)
      eqn:Htracking;
    cbn [execute.Fail execute.BranchesSyncStatus execute.Check fst snd value];
    try discriminate.
  intros [= <- _ _ ->].
  cbn [cmd.targetBranch cmd.branches cmd.branchesToSync cmd.newBranchParentCandidates
       cmd.parentBranch cmd.dryRun configdomain.All configdomain.Initial].
  repeat split; try assumption.
  - rewrite rev_involutive. apply (Select_names _ _ _ Hselect).
  - unfold configdomain.BranchAndAncestors. rewrite rev_app_distr. cbn.
    eexists; reflexivity.
Qed.

(** X6.  Every config that [determineAppendConfig] returns without error
    has a free target name (no local branch and no tracking branch of that
    name), lists as parent candidates exactly the branches it syncs, in the
    opposite order, and the branch the command was started on is both the
    parent of the new branch and its first parent candidate. *)
Theorem returned_append_config_is_consistent (targetBranch : gitdomain.LocalBranchName)
    (repo : execute.OpenRepoResult) (dryRun verbose : bool) (w : World)
    (config : cmd.appendConfig) (snap : gitdomain.BranchesStatus) (stash : gitdomain.StashSize) :
  value (cmd.determineAppendConfig ext targetBranch repo dryRun verbose w)
  = (Some config, snap, stash, false, None) ->
  cmd.targetBranch config = targetBranch /\
  gitdomain.HasLocalBranch (configdomain.All (cmd.branches config)) targetBranch = false /\
  gitdomain.HasMatchingTrackingBranchFor (configdomain.All (cmd.branches config)) targetBranch
  = false /\
  map gitdomain.LocalName (cmd.branchesToSync config)
  = rev (cmd.newBranchParentCandidates config) /\
  cmd.parentBranch config = configdomain.Initial (cmd.branches config) /\
  (exists ancestors,
      cmd.newBranchParentCandidates config = cmd.parentBranch config :: ancestors) /\
  cmd.dryRun config = dryRun.
Proof.
  apply returned_append_config_facts.
Qed.

(** X7.  [executeAppend] by stage.  If opening the repository fails, that
    error is returned.  If [determineAppendConfig] returns an error or the
    signal to exit, its error is returned as it is ([nil] on a plain exit)
    and the interpreter is not called.  Otherwise the config is not [nil],
    and the interpreter is called once, after all of that, with a fresh run
    state for "append" (not unfinished, holding [appendProgram] of the
    config) and no connector; its error is the command's. *)
Theorem executeAppend_by_stage (arg : string) (dryRun verbose : bool) (w : World) :
  let opened := execute_OpenRepo ext verbose dryRun false true false true w in
  let r := cmd.executeAppend ext arg dryRun verbose w in
  match value opened with
  | Failed err => value r = Some err /\ after r = after opened /\ events r = events opened
  | Ok repo =>
      let determined := cmd.determineAppendConfig ext arg repo dryRun verbose (after opened) in
      let '(config, snap, stash, exit, err) := value determined in
      if notNil err || exit
      then value r = err /\ after r = after determined /\
           events r = events opened ++ events determined
      else
        exists config',
          config = Some config' /\
          let runState :=
            {| runstate.Command := "append";
               runstate.DryRun := dryRun;
               runstate.InitialActiveBranch := gitdomain.Active snap;
               runstate.RunProgram := cmd.appendProgram ext config';
               runstate.UnfinishedDetails := None |} in
          let a :=
            {| interpreter.FullConfig := cmd.FullConfig config';
               interpreter.RunState := runState;
               interpreter.Run := {| git.FullConfig := cmd.FullConfig config' |};
               interpreter.Connector := None;
               interpreter.Verbose := verbose;
               interpreter.RootDir := execute.RootDir repo;
               interpreter.InitialBranchesSnapshot := snap;
               interpreter.InitialConfigSnapshot := execute.ConfigSnapshot repo;
               interpreter.InitialStashSnapshot := stash |} in
          let x := interpreter_Execute ext a (after determined) in
          value r = value x /\ after r = after x /\
          events r
          = events opened ++ events determined
            ++ EvExecute (execute.RootDir repo) runState :: events x
  end.
Proof.
  cbv zeta. unfold cmd.executeAppend. run_goal.
  destruct (execute_OpenRepo ext verbose dryRun false true false true w)
    as [[repo | errOpen] w0 ev0]; cbn [value after events].
  2: { run_goal. auto. }
  pose proof (determineAppendConfig_nil_config ext arg repo dryRun verbose w0) as Hnil.
  destruct (cmd.determineAppendConfig ext arg repo dryRun verbose w0)
    as [[[[[config snap] stash] ex] er] w1 ev1].
  cbn [value after events] in *.
  destruct (notNil er || ex) eqn:Hstop.
  - run_goal. auto.
  - destruct config as [config' | ]; [ | specialize (Hnil eq_refl); discriminate ].
    exists config'. split; [ reflexivity | ].
    run_goal.
    match goal with
    | |- context [interpreter_Execute ext ?a w1] =>
        destruct (interpreter_Execute ext a w1)
    end.
    run_goal. repeat split; reflexivity.
Qed.

(** X8.  When loading the branches ends with an error or with the signal
    to exit (the unfinished-state handler has dealt with the invocation),
    the append command passes that on: it returns the error of the loading
    ([nil] on a plain exit), performs no query and no dialog of its own, and
    does not call the interpreter. *)
Theorem append_passes_on_the_exit_of_loading (arg : string) (dryRun verbose : bool) (w : World)
    (repo : execute.OpenRepoResult) :
  let opened := execute_OpenRepo ext verbose dryRun false true false true w in
  let loaded :=
    execute_LoadBranches ext (git.FullConfig (execute.Runner repo)) repo verbose
      true true true false (after opened) in
  value opened = Ok repo ->
  notNil (execute.err (value loaded)) || execute.exit (value loaded) = true ->
  let r := cmd.executeAppend ext arg dryRun verbose w in
  value r = execute.err (value loaded) /\
  after r = after loaded /\
  events r = events opened ++ events loaded.
Proof.
  cbv zeta. unfold cmd.executeAppend, cmd.determineAppendConfig. run_goal.
  destruct (execute_OpenRepo ext verbose dryRun false true false true w)
    as [openedValue w0 ev0]. cbn [value after events]. intros ->.
  destruct (execute_LoadBranches ext (git.FullConfig (execute.Runner repo)) repo verbose
              true true true false w0) as [[found snap stash ex er] w1 ev1].
  cbn [value after events execute.branches execute.err execute.exit
       execute.branchesSnapshot execute.stashSnapshot].
  intros Hstop. rewrite Hstop. cbn [value after events]. rewrite Hstop.
  run_goal. auto.
Qed.

End AppendStages.

(** ** The ship command: eligibility and configuration *)

(** The eligibility check returns only for a parent that is the main branch
    or a perennial branch. *)
Lemma ensureParent_returns (branch : string) (repo : ship.ProdRepo) (u : unit) :
  ship.ensureParentBranchIsMainOrPerennialBranch branch repo = ship.Returns u ->
  ship.IsMainBranch repo (ship.ParentBranch repo branch)
  || ship.IsPerennialBranch repo (ship.ParentBranch repo branch) = true.
Proof.
  unfold ship.ensureParentBranchIsMainOrPerennialBranch.
  destruct (ship.IsMainBranch repo (ship.ParentBranch repo branch));
    destruct (ship.IsPerennialBranch repo (ship.ParentBranch repo branch));
    cbn [negb andb orb]; auto.
  destruct (ship.AncestorBranches repo branch) as [ | first [ | oldest rest]]; cbn;
    discriminate.
Qed.

(** X9.  The eligibility check lets a branch pass exactly when its parent
    is the main branch or a perennial branch; the ancestor list is not even
    read then, so no lineage can make it panic. *)
Theorem eligibility_check_passes_iff_parent_is_main_or_perennial (branch : string)
    (repo : ship.ProdRepo) :
  ship.ensureParentBranchIsMainOrPerennialBranch branch repo = ship.Returns tt
  <-> ship.IsMainBranch repo (ship.ParentBranch repo branch)
      || ship.IsPerennialBranch repo (ship.ParentBranch repo branch) = true.
Proof.
  split.
  - apply ensureParent_returns.
  - unfold ship.ensureParentBranchIsMainOrPerennialBranch.
    destruct (ship.IsMainBranch repo (ship.ParentBranch repo branch));
      destruct (ship.IsPerennialBranch repo (ship.ParentBranch repo branch));
      cbn [negb andb orb]; auto; discriminate.
Qed.

(** Takes a successful [determineShipConfig] apart, check by check. *)
Ltac ship_checks H :=
  unfold ship.determineShipConfig, ship.try, ship.check, ship.andThen in H;
  repeat match type of H with
         | context [ship.ensureParentBranchIsMainOrPerennialBranch ?b ?r] =>
             let Helig := fresh "Heligible" in
             destruct (ship.ensureParentBranchIsMainOrPerennialBranch b r) as [ [] | | ]
               eqn:Helig; [ apply ensureParent_returns in Helig | discriminate H .. ]
         | context [ship.determinePullRequestInfo ?b ?p ?r ?d] =>
             let Hinfo := fresh "Hinfo" in
             destruct (ship.determinePullRequestInfo b p r d) as [? | ?] eqn:Hinfo;
             [ | discriminate H ]
         | context [match ?x with _ => _ end] => destruct x eqn:?; try discriminate H
         end.

Section ShipConfig.
Context (ext : ship.Collaborators).

(** X10.  Every config that [determineShipConfig] returns is for a feature
    branch whose parent, as the parent dialog left the configuration, is
    the main branch or a perennial branch; that parent is the branch to
    merge into.  The branch shipped is the argument, or the checked-out
    branch when there is none, and when it is the checked-out branch the
    work tree has no open changes. *)
Theorem returned_ship_config_is_eligible (args : list string) (driver : option ship.Driver)
    (repo repo' : ship.ProdRepo) (config : ship.shipConfig) :
  ship.determineShipConfig ext args driver repo = ship.Returns (Ok (config, repo')) ->
  ship.CurrentBranch repo = Ok (ship.initialBranch config) /\
  ship.branchToShip config
  = match args with [] => ship.initialBranch config | arg0 :: _ => arg0 end /\
  ship.isShippingInitialBranch config
  = String.eqb (ship.branchToShip config) (ship.initialBranch config) /\
  (ship.isShippingInitialBranch config = true -> ship.HasOpenChanges repo = Ok false) /\
  ship.IsFeatureBranch repo (ship.branchToShip config) = true /\
  ship.EnsureKnowsParentBranches ext [ship.branchToShip config] repo = Ok repo' /\
  ship.branchToMergeInto config = ship.ParentBranch repo' (ship.branchToShip config) /\
  ship.IsMainBranch repo' (ship.branchToMergeInto config)
  || ship.IsPerennialBranch repo' (ship.branchToMergeInto config) = true /\
  ship.childBranches config = ship.ChildBranches repo' (ship.branchToShip config).
Proof.
  intros H. ship_checks H.
  all: injection H as <- <-;
    cbn [ship.initialBranch ship.branchToShip ship.isShippingInitialBranch
         ship.branchToMergeInto ship.childBranches];
    repeat match goal with
           | Hcheck : match ?c with _ => _ end = None |- _ =>
               destruct c eqn:?; try discriminate Hcheck
           end;
    repeat split; try assumption; try reflexivity; try congruence.
  all: try (apply negb_false_iff; assumption).
  all: try (intros Hsame; congruence).
Qed.

(** X11.  A returned config can ship with the driver only if a driver is
    configured, the repository (as the parent dialog left it) has an origin
    and is online, and the driver itself reported for this branch and its
    parent a pull request that can be merged through the API; the pull
    request number and the default commit message are the driver's. *)
Theorem shipping_with_driver_needs_origin_and_network (args : list string)
    (driver : option ship.Driver) (repo repo' : ship.ProdRepo) (config : ship.shipConfig) :
  ship.determineShipConfig ext args driver repo = ship.Returns (Ok (config, repo')) ->
  ship.canShipWithDriver config = true ->
  ship.HasOrigin repo' = Ok true /\
  ship.IsOffline repo' = Ok false /\
  exists d info,
    driver = Some d /\
    ship.LoadPullRequestInfo d (ship.branchToShip config) (ship.branchToMergeInto config)
    = Ok info /\
    ship.CanMergeWithAPI info = true /\
    ship.pullRequestNumber config = ship.PullRequestNumber info /\
    ship.defaultCommitMessage config = ship.DefaultCommitMessage info.
Proof.
  intros H. ship_checks H.
  all: injection H as <- <-;
    cbn [ship.canShipWithDriver ship.branchToShip ship.branchToMergeInto
         ship.pullRequestNumber ship.defaultCommitMessage];
    intros Hcan;
    unfold ship.determinePullRequestInfo in Hinfo;
    repeat match type of Hinfo with
           | context [match ?x with _ => _ end] =>
               destruct x eqn:?; cbn [negb] in Hinfo; try discriminate Hinfo
           end;
    try (injection Hinfo as <-; discriminate Hcan);
    match goal with
    | Hn : negb ?b = false |- _ => destruct b; [ | discriminate Hn ]
    end;
    do 2 (split; [ reflexivity | ]);
    do 2 eexists; repeat split; try reflexivity; eassumption.
Qed.

(** X12.  Shipping the checked-out branch is refused with the
    uncommitted-changes error whenever the work tree has open changes, with
    or without a branch argument and whatever else the repository
    answers. *)
Theorem ship_refuses_open_changes_on_current_branch (args : list string)
    (driver : option ship.Driver) (repo : ship.ProdRepo) (initialBranch : string) :
  ship.CurrentBranch repo = Ok initialBranch ->
  match args with [] => True | arg0 :: _ => arg0 = initialBranch end ->
  ship.HasOpenChanges repo = Ok true ->
  ship.determineShipConfig ext args driver repo = ship.Returns (Failed UncommittedChanges).
Proof.
  intros Hcurrent Hsame Hopen. unfold ship.determineShipConfig.
  rewrite Hcurrent. cbn [ship.try].
  replace (match args with [] => initialBranch | arg0 :: _ => arg0 end) with initialBranch
    by (destruct args; [ reflexivity | symmetry; exact Hsame ]).
  rewrite String.eqb_refl, Hopen. reflexivity.
Qed.

(** X13.  Shipping a branch other than the checked-out one that exists
    neither locally nor at the origin is refused with the no-such-branch
    error (once the origin and offline queries and the fetch have
    succeeded); open changes in the work tree play no part. *)
Theorem ship_refuses_unknown_branch (branch : string) (rest : list string)
    (driver : option ship.Driver) (repo : ship.ProdRepo) (initialBranch : string)
    (hasOrigin isOffline : bool) :
  ship.CurrentBranch repo = Ok initialBranch ->
  branch <> initialBranch ->
  ship.HasOrigin repo = Ok hasOrigin ->
  ship.IsOffline repo = Ok isOffline ->
  (hasOrigin && negb isOffline = true -> ship.Fetch repo = None) ->
  ship.HasLocalOrOriginBranch repo branch = Ok false ->
  ship.determineShipConfig ext (branch :: rest) driver repo
  = ship.Returns (Failed (NoBranchNamed branch)).
Proof.
  intros Hcurrent Hother Horigin Hoffline Hfetch Hmissing. unfold ship.determineShipConfig.
  rewrite Hcurrent. cbn [ship.try].
  apply String.eqb_neq in Hother. rewrite Hother, Horigin, Hoffline. cbn [ship.try ship.check].
  destruct (hasOrigin && negb isOffline).
  - rewrite Hfetch by reflexivity. cbn [negb ship.check]. rewrite Hmissing. reflexivity.
  - cbn [negb ship.check]. rewrite Hmissing. reflexivity.
Qed.

(** X14.  The ship command hands a run state to [runstate.Execute] only
    when every planning stage has succeeded: the driver was made, the
    config determined, and the step list built and wrapped without error.
    The run state is then the "ship" state of exactly that step list, and
    the error of the execution, if any, ends the process. *)
Theorem ship_executes_only_a_complete_plan (args : list string) (commitMessage : string)
    (repo : ship.ProdRepo) (runState : ship.RunState) :
  ship.executed (ship.shipCmdRun ext args commitMessage repo) = Some runState ->
  exists driver config repo' stepList,
    ship.hosting_NewDriver ext repo = Ok driver /\
    ship.determineShipConfig ext args driver repo = ship.Returns (Ok (config, repo')) /\
    ship.shipStepList ext config commitMessage repo' = (stepList, None) /\
    runState = {| ship.Command := "ship"; ship.RunStepList := stepList |} /\
    ship.ending (ship.shipCmdRun ext args commitMessage repo)
    = match ship.runstate_Execute ext runState repo' driver with
      | Some err => ship.Exits err
      | None => ship.Returns tt
      end.
Proof.
  unfold ship.shipCmdRun, ship.shipCmdPlan.
  destruct (ship.hosting_NewDriver ext repo) as [driver | err] eqn:Hdriver;
    [ | discriminate ].
  destruct (ship.determineShipConfig ext args driver repo)
    as [[[config repo'] | err] | err | p] eqn:Hconfig;
    cbn [ship.andThen ship.executed]; try discriminate.
  destruct (ship.shipStepList ext config commitMessage repo') as [stepList [err | ]]
    eqn:Hsteps;
    cbn [ship.executed ship.ending]; [ discriminate | ].
  intros [= <-]. exists driver, config, repo', stepList.
  repeat split; first [ assumption | reflexivity ].
Qed.

End ShipConfig.

(** ** The ship command: the steps planned *)

(** The steps of the re-parenting loop are set-parent steps, all of them. *)
Lemma setParent_steps_only (children : list string) (parent : string) (step : ship.Step) :
  step ∈ map (fun child => ship.SetParentBranchStep child parent) children ->
  isSetParent step = true.
Proof.
  induction children as [ | child rest IH]; cbn.
  - intros H. apply elem_of_nil in H. contradiction.
  - rewrite elem_of_cons. intros [-> | H]; [ reflexivity | auto ].
Qed.

Lemma filter_setParent_steps (children : list string) (parent : string) :
  List.filter isSetParent (map (fun child => ship.SetParentBranchStep child parent) children)
  = map (fun child => ship.SetParentBranchStep child parent) children.
Proof.
  induction children as [ | child rest IH]; cbn; [ reflexivity | rewrite IH; reflexivity ].
Qed.

(** The last step of a list that ends with the re-parenting loop. *)
Lemma last_before_setParent_steps (before : ship.StepList) (step : ship.Step)
    (children : list string) (parent : string) :
  last (before ++ [step] ++ map (fun child => ship.SetParentBranchStep child parent) children)
  = Some (match last children with
          | Some child => ship.SetParentBranchStep child parent
          | None => step
          end).
Proof.
  induction children as [ | child rest IH] using rev_ind.
  - cbn [map last]. rewrite app_nil_r, last_snoc. reflexivity.
  - rewrite map_app. cbn [map]. rewrite !app_assoc, !last_snoc. reflexivity.
Qed.

(** Splits [shipOwnSteps] by the conditions it tests. *)
Ltac ship_step_cases config :=
  unfold ship.shipOwnSteps; rewrite setParent_loop;
  destruct (ship.canShipWithDriver config);
  destruct (ship.hasOrigin config);
  destruct (ship.isOffline config);
  destruct (ship.hasTrackingBranch config);
  destruct (length (ship.childBranches config) =? 0)%nat;
  destruct (ship.deleteOriginBranch config);
  destruct (ship.isShippingInitialBranch config);
  cbn [app andb orb negb].

(** Settles membership of a step that is not a set-parent step in a list
    whose tail is the re-parenting loop. *)
Ltac step_membership :=
  repeat first [ rewrite elem_of_cons | rewrite elem_of_app | rewrite elem_of_nil ];
  split;
  [ intros Hin;
    repeat match type of Hin with
           | _ \/ _ => destruct Hin as [Hin | Hin]
           end;
    first [ reflexivity | discriminate Hin | contradiction
          | apply setParent_steps_only in Hin; discriminate Hin ]
  | intros Hcond; first [ discriminate Hcond | solve [ intuition auto ] ] ].

(** X15.  With a config that ships through the driver, the steps after the
    syncs begin: ensure shippable changes, check out the branch to merge
    into, push the shipped branch, merge the pull request through the
    driver (with the config's number and default message), pull; and no
    step squash-merges locally. *)
Theorem ship_with_driver_pushes_merges_pulls (config : ship.shipConfig) (commitMessage : string) :
  ship.canShipWithDriver config = true ->
  (exists rest,
      ship.shipOwnSteps config commitMessage
      = [ ship.EnsureHasShippableChangesStep (ship.branchToShip config);
          ship.CheckoutBranchStep (ship.branchToMergeInto config);
          ship.PushBranchStep (ship.branchToShip config) false;
          ship.DriverMergePullRequestStep (ship.branchToShip config)
            (ship.pullRequestNumber config) commitMessage (ship.defaultCommitMessage config);
          ship.PullBranchStep ] ++ rest) /\
  forallb (fun step => negb (isSquashMerge step)) (ship.shipOwnSteps config commitMessage) = true.
Proof.
  intros Hcan.
  assert (forallb (fun step => negb (isSquashMerge step))
            (map (fun child => ship.SetParentBranchStep child (ship.branchToMergeInto config))
               (ship.childBranches config)) = true) as Hchildren.
  { induction (ship.childBranches config); cbn; auto. }
  unfold ship.shipOwnSteps. rewrite setParent_loop, Hcan. cbn [app orb].
  destruct (ship.hasOrigin config && negb (ship.isOffline config));
    destruct (ship.deleteOriginBranch config);
    destruct (negb (ship.isShippingInitialBranch config));
    cbn [app];
    (split; [ eexists; reflexivity | ]);
    repeat first [ rewrite forallb_app | rewrite Hchildren
                 | progress cbn [forallb negb isSquashMerge andb] ];
    reflexivity.
Qed.

(** X16.  The step that deletes the shipped branch at the origin is planned
    exactly when the configuration asks for it and either the branch ships
    through the driver, or it has a tracking branch, no child branches, and
    the run is online. *)
Theorem origin_branch_is_deleted_iff (config : ship.shipConfig) (commitMessage : string) :
  ship.DeleteOriginBranchStep (ship.branchToShip config) true
    ∈ ship.shipOwnSteps config commitMessage
  <-> ship.deleteOriginBranch config
      && (ship.canShipWithDriver config
          || (ship.hasTrackingBranch config
              && (length (ship.childBranches config) =? 0)%nat
              && negb (ship.isOffline config))) = true.
Proof. ship_step_cases config; step_membership. Qed.

(** X17.  The undoable push of the branch merged into is planned exactly
    when the repository has an origin and the run is online. *)
Theorem merge_target_is_pushed_iff (config : ship.shipConfig) (commitMessage : string) :
  ship.PushBranchStep (ship.branchToMergeInto config) true
    ∈ ship.shipOwnSteps config commitMessage
  <-> ship.hasOrigin config && negb (ship.isOffline config) = true.
Proof. ship_step_cases config; step_membership. Qed.

(** X18.  Every child branch of the shipped branch is re-parented to the
    branch merged into, once each and in the order of the config; no other
    set-parent step is planned. *)
Theorem children_are_reparented_in_order (config : ship.shipConfig) (commitMessage : string) :
  List.filter isSetParent (ship.shipOwnSteps config commitMessage)
  = map (fun child => ship.SetParentBranchStep child (ship.branchToMergeInto config))
      (ship.childBranches config).
Proof.
  ship_step_cases config;
    repeat first [ rewrite List.filter_app | rewrite filter_setParent_steps
                 | progress cbn [List.filter isSetParent app] ];
    rewrite ?app_nil_r; reflexivity.
Qed.

(** X19.  When another branch than the checked-out one is shipped, the
    last step planned checks the initial branch out again; when the
    checked-out branch itself is shipped there is no such step, and the
    plan ends with the re-parenting of the last child or, without
    children, with the removal of the parent entry of the shipped
    branch. *)
Theorem ship_ends_on_the_initial_branch_unless_shipped (config : ship.shipConfig)
    (commitMessage : string) :
  last (ship.shipOwnSteps config commitMessage)
  = Some (if ship.isShippingInitialBranch config
          then match last (ship.childBranches config) with
               | Some child => ship.SetParentBranchStep child (ship.branchToMergeInto config)
               | None => ship.DeleteParentBranchStep (ship.branchToShip config)
               end
          else ship.CheckoutBranchStep (ship.initialBranch config)).
Proof.
  unfold ship.shipOwnSteps. rewrite setParent_loop.
  destruct (ship.isShippingInitialBranch config); cbn [negb].
  - rewrite <- app_assoc. apply last_before_setParent_steps.
  - apply last_snoc.
Qed.

(** ** The struct linter: which files it reads and how it ends *)

Lemma string_append_cons (c : Ascii.ascii) (s t : string) :
  (String c s ++ t)%string = String c (s ++ t)%string.
Proof. reflexivity. Qed.

Lemma string_length_append (s t : string) :
  String.length (s ++ t)%string = String.length s + String.length t.
Proof.
  induction s as [ | c s IH]; [ reflexivity | ].
  rewrite string_append_cons. cbn. rewrite IH. reflexivity.
Qed.

Lemma substring_start_append (n : nat) (s t : string) :
  n <= String.length s ->
  String.substring 0 n (s ++ t)%string = String.substring 0 n s.
Proof.
  revert s. induction n as [ | n IH]; intros [ | c s] Hlen.
  - destruct t; reflexivity.
  - reflexivity.
  - cbn in Hlen. lia.
  - rewrite string_append_cons. cbn in *. rewrite IH by lia. reflexivity.
Qed.

(** A prefix of a path is a prefix of every extension of the path. *)
Lemma HasPrefix_append (s t prefix : string) :
  structs_sorted.HasPrefix s prefix = true ->
  structs_sorted.HasPrefix (s ++ t)%string prefix = true.
Proof.
  unfold structs_sorted.HasPrefix. rewrite !andb_true_iff, !Nat.leb_le.
  intros [Hlen Heq]. split.
  - rewrite string_length_append. lia.
  - rewrite substring_start_append by assumption. exact Heq.
Qed.

(** A string is a prefix of itself. *)
Lemma HasPrefix_self (prefix t : string) :
  structs_sorted.HasPrefix (prefix ++ t)%string prefix = true.
Proof.
  apply HasPrefix_append. unfold structs_sorted.HasPrefix.
  rewrite Nat.leb_refl. cbn [andb]. apply String.eqb_eq.
  induction prefix as [ | c prefix IH]; cbn; [ reflexivity | rewrite IH; reflexivity ].
Qed.

(** X20.  The linter ignores by prefix: every path that starts with
    [vendor/] or with [tools/structs_sorted/test.go] is ignored, whatever
    follows, and whatever extends an ignored path is ignored too; a path is
    ignored for no other reason. *)
Theorem ignored_paths_are_closed_under_extension :
  (forall path rest : string,
      structs_sorted.isIgnoredPath path = true ->
      structs_sorted.isIgnoredPath (path ++ rest)%string = true) /\
  (forall rest : string,
      structs_sorted.isIgnoredPath ("vendor/" ++ rest)%string = true /\
      structs_sorted.isIgnoredPath ("tools/structs_sorted/test.go" ++ rest)%string = true) /\
  (forall path : string,
      structs_sorted.isIgnoredPath path = true ->
      exists rest,
        path = ("vendor/" ++ rest)%string \/
        path = ("tools/structs_sorted/test.go" ++ rest)%string).
Proof.
  assert (forall ignores path rest,
             structs_sorted.isIgnoredAmong ignores path = true ->
             structs_sorted.isIgnoredAmong ignores (path ++ rest)%string = true) as Hclosed.
  { induction ignores as [ | ignore ignores IH]; intros path rest; cbn; [ discriminate | ].
    destruct (structs_sorted.HasPrefix path ignore) eqn:Hprefix.
    - rewrite (HasPrefix_append _ _ _ Hprefix). reflexivity.
    - intros H. rewrite (IH _ _ H).
      destruct (structs_sorted.HasPrefix (path ++ rest)%string ignore); reflexivity. }
  split; [ | split ].
  - intros path rest. apply Hclosed.
  - intros rest. unfold structs_sorted.isIgnoredPath, structs_sorted.ignorePaths.
    cbn [structs_sorted.isIgnoredAmong].
    rewrite (HasPrefix_self "vendor/" rest),
      (HasPrefix_self "tools/structs_sorted/test.go" rest).
    split; [ reflexivity | ].
    destruct (structs_sorted.HasPrefix ("tools/structs_sorted/test.go" ++ rest)%string
                "vendor/"); reflexivity.
  - intros path. unfold structs_sorted.isIgnoredPath, structs_sorted.ignorePaths.
    cbn [structs_sorted.isIgnoredAmong].
    assert (forall prefix, structs_sorted.HasPrefix path prefix = true ->
                           exists rest, path = (prefix ++ rest)%string) as Hsplit.
    { unfold structs_sorted.HasPrefix. intros prefix.
      rewrite andb_true_iff, String.eqb_eq. intros [_ Heq].
      apply String.prefix_correct in Heq.
      clear -Heq. revert path Heq.
      induction prefix as [ | c prefix IH]; intros path Heq.
      - exists path. reflexivity.
      - destruct path as [ | c' path]; cbn in Heq; [ discriminate | ].
        destruct (Ascii.ascii_dec c c') as [-> | ]; [ | discriminate ].
        destruct (IH path Heq) as [rest ->]. exists rest. reflexivity. }
    destruct (structs_sorted.HasPrefix path "vendor/") eqn:Hvendor.
    + intros _. destruct (Hsplit _ Hvendor) as [rest ->]. exists rest. left. reflexivity.
    + destruct (structs_sorted.HasPrefix path "tools/structs_sorted/test.go") eqn:Htest;
        [ | discriminate ].
      intros _. destruct (Hsplit _ Htest) as [rest ->]. exists rest. right. reflexivity.
Qed.

Section LinterRuns.
Context {TypeSpec CompositeLit FileSet Issue : Type}.
Context (ParseFile :
           string -> Result (FileSet * list (structs_sorted.Node TypeSpec CompositeLit))).
Context (lintStructDefinition : TypeSpec -> FileSet -> list Issue).
Context (lintStructLiteral : CompositeLit -> FileSet -> list Issue).

Local Abbreviation LintFile :=
  (structs_sorted.LintFile ParseFile lintStructDefinition lintStructLiteral).
Local Abbreviation Walk :=
  (structs_sorted.Walk ParseFile lintStructDefinition lintStructLiteral).
Local Abbreviation main :=
  (structs_sorted.main ParseFile lintStructDefinition lintStructLiteral).

(** A walk without errors collects the issues of the linted entries. *)
Lemma Walk_without_errors (entries : list structs_sorted.WalkEntry) (issues : list Issue) :
  Forall (fun entry => structs_sorted.walkErr entry = None) entries ->
  Walk entries issues
  = (issues ++ concat (map (fun entry => LintFile (structs_sorted.path entry))
                         (List.filter structs_sorted.isLinted entries)), None).
Proof.
  intros Hclean. revert issues.
  induction Hclean as [ | entry rest Hentry _ IH]; intros issues; cbn.
  - rewrite app_nil_r. reflexivity.
  - unfold structs_sorted.visit, structs_sorted.isLinted. rewrite Hentry. cbn [notNil orb].
    destruct (structs_sorted.IsDir entry); cbn [orb negb andb]; [ apply IH | ].
    destruct (structs_sorted.HasSuffix (structs_sorted.Name entry) ".go");
      cbn [orb negb andb]; [ | apply IH ].
    destruct (structs_sorted.isIgnoredPath (structs_sorted.path entry));
      cbn [orb negb andb]; [ apply IH | ].
    rewrite IH. cbn [map concat]. rewrite app_assoc. reflexivity.
Qed.

(** X21.  When the walk meets no error, the linter lints exactly the
    entries that are regular files named [*.go] outside the ignored paths,
    in walk order; it prints the issues only if there are any, and the code
    it gives to [os.Exit] is their number, so it is zero exactly when no
    linted file has an issue. *)
Theorem linter_exit_code_counts_issues (entries : list structs_sorted.WalkEntry) :
  Forall (fun entry => structs_sorted.walkErr entry = None) entries ->
  let issues :=
    concat (map (fun entry => LintFile (structs_sorted.path entry))
              (List.filter structs_sorted.isLinted entries)) in
  structs_sorted.code (main entries) = length issues /\
  structs_sorted.printed (main entries)
  = (if (0 <? length issues)%nat then [structs_sorted.PrintedIssues issues] else []) /\
  (structs_sorted.code (main entries) = 0 <->
   forall entry, entry ∈ entries -> structs_sorted.isLinted entry = true ->
                 LintFile (structs_sorted.path entry) = []).
Proof.
  intros Hclean issues. unfold structs_sorted.main.
  rewrite (Walk_without_errors entries [] Hclean). cbn [app]. fold issues.
  cbn [structs_sorted.code structs_sorted.printed].
  split; [ reflexivity | split; [ reflexivity | ] ].
  subst issues. clear Hclean.
  induction entries as [ | entry rest IH]; cbn [List.filter map concat].
  - split; [ intros _ entry H; apply elem_of_nil in H; contradiction | reflexivity ].
  - destruct (structs_sorted.isLinted entry) eqn:Hlinted; cbn [map concat].
    + rewrite length_app. split.
      * intros Hzero entry' Hin Hl. apply elem_of_cons in Hin as [-> | Hin].
        -- apply length_zero_iff_nil. lia.
        -- apply IH; [ lia | assumption | assumption ].
      * intros Hall. rewrite (Hall entry) by (try assumption; apply elem_of_cons; auto).
        cbn. apply IH. intros entry' Hin. apply Hall. apply elem_of_cons; auto.
    + rewrite IH. split.
      * intros Hall entry' Hin Hl. apply elem_of_cons in Hin as [-> | Hin];
          [ congruence | auto ].
      * intros Hall entry' Hin. apply Hall. apply elem_of_cons; auto.
Qed.

(** X22.  The first entry the walk cannot reach ends the run: the linter
    prints that error and exits with code 1; the issues found before it are
    not printed and the entries after it are not read. *)
Theorem linter_stops_at_first_walk_error (before rest : list structs_sorted.WalkEntry)
    (entry : structs_sorted.WalkEntry) (err : Error) :
  Forall (fun entry => structs_sorted.walkErr entry = None) before ->
  structs_sorted.walkErr entry = Some err ->
  main (before ++ entry :: rest)
  = {| structs_sorted.printed := [structs_sorted.PrintedError err];
       structs_sorted.code := 1 |}.
Proof.
  intros Hclean Herr. unfold structs_sorted.main.
  assert (forall issues, exists found, Walk (before ++ entry :: rest) issues = (found, Some err))
    as Hwalk.
  { induction Hclean as [ | first others Hfirst _ IH]; intros issues; cbn.
    - unfold structs_sorted.visit. rewrite Herr. cbn. eexists; reflexivity.
    - destruct (structs_sorted.visit ParseFile lintStructDefinition lintStructLiteral
                  issues first) as [issues' visitErr] eqn:Hvisit.
      assert (visitErr = None) as ->.
      { unfold structs_sorted.visit in Hvisit. rewrite Hfirst in Hvisit.
        destruct (_ || _) in Hvisit; injection Hvisit as _ <-; reflexivity. }
      apply IH. }
  destruct (Hwalk []) as [found ->]. reflexivity.
Qed.

(** X23.  A file the parser rejects has no issues: [LintFile] swallows the
    parse error.  For a file that parses, the issues are those of its type
    specs (by [lintStructDefinition]) and of its composite literals (by
    [lintStructLiteral]), in the order the nodes are visited; other nodes
    add none. *)
Theorem LintFile_collects_in_visiting_order (path : string) :
  LintFile path
  = match ParseFile path with
    | Failed _ => []
    | Ok (fileSet, nodes) =>
        concat (map (fun node =>
                       match node with
                       | structs_sorted.OfTypeSpec typedNode =>
                           lintStructDefinition typedNode fileSet
                       | structs_sorted.OfCompositeLit typedNode =>
                           lintStructLiteral typedNode fileSet
                       | structs_sorted.OtherNode => []
                       end) nodes)
    end.
Proof.
  unfold structs_sorted.LintFile.
  destruct (ParseFile path) as [[fileSet nodes] | err]; [ | reflexivity ].
  assert (forall result,
             structs_sorted.inspect lintStructDefinition lintStructLiteral fileSet nodes result
             = result ++ concat (map (fun node =>
                       match node with
                       | structs_sorted.OfTypeSpec typedNode =>
                           lintStructDefinition typedNode fileSet
                       | structs_sorted.OfCompositeLit typedNode =>
                           lintStructLiteral typedNode fileSet
                       | structs_sorted.OtherNode => []
                       end) nodes)) as Hinspect.
  { induction nodes as [ | node rest IH]; intros acc; cbn.
    - rewrite app_nil_r. reflexivity.
    - rewrite IH. destruct node; cbn; rewrite <- ?app_assoc; reflexivity. }
  rewrite Hinspect. reflexivity.
Qed.

End LinterRuns.

(** ** Runs of the further properties on concrete inputs *)

Lemma returned_append_config_is_consistent_witness :
  cmd.targetBranch (scenario.appendConfig scenario.dirty) = "feature-2" /\
  gitdomain.HasLocalBranch [scenario.main; scenario.feature] "feature-2" = false /\
  gitdomain.HasMatchingTrackingBranchFor [scenario.main; scenario.feature] "feature-2" = false /\
  map gitdomain.LocalName [scenario.main; scenario.feature] = rev ["feature"; "main"] /\
  "feature" = "feature" /\
  (exists ancestors, ["feature"; "main"] = "feature" :: ancestors) /\
  false = false.
Proof.
  exact (returned_append_config_is_consistent scenario.ext "feature-2" scenario.repo
           false false (scenario.appendWorld scenario.dirty)
           (scenario.appendConfig scenario.dirty) scenario.snapshot 0 eq_refl).
Defined.

Lemma append_passes_on_the_exit_of_loading_witness :
  value (cmd.executeAppend sample.quitting "feature-2" false false
           (scenario.haltedWorld scenario.conflicted)) = None /\
  after (cmd.executeAppend sample.quitting "feature-2" false false
           (scenario.haltedWorld scenario.conflicted))
  = scenario.haltedWorld scenario.conflicted /\
  events (cmd.executeAppend sample.quitting "feature-2" false false
            (scenario.haltedWorld scenario.conflicted)) = [].
Proof.
  exact (append_passes_on_the_exit_of_loading sample.quitting "feature-2" false false
           (scenario.haltedWorld scenario.conflicted) scenario.repo eq_refl eq_refl).
Defined.

Lemma returned_ship_config_is_eligible_witness :
  ship.CurrentBranch scenario.prodRepo = Ok "feature" /\
  "feature" = "feature" /\
  true = String.eqb "feature" "feature" /\
  (true = true -> ship.HasOpenChanges scenario.prodRepo = Ok false) /\
  ship.IsFeatureBranch scenario.prodRepo "feature" = true /\
  ship.EnsureKnowsParentBranches scenario.shipCollaborators ["feature"] scenario.prodRepo
  = Ok scenario.prodRepo /\
  "main" = ship.ParentBranch scenario.prodRepo "feature" /\
  ship.IsMainBranch scenario.prodRepo "main" || ship.IsPerennialBranch scenario.prodRepo "main"
  = true /\
  [] = ship.ChildBranches scenario.prodRepo "feature".
Proof.
  exact (returned_ship_config_is_eligible scenario.shipCollaborators [] None
           scenario.prodRepo scenario.prodRepo scenario.shipConfig eq_refl).
Defined.

Lemma shipping_with_driver_needs_origin_and_network_witness :
  ship.HasOrigin scenario.prodRepo = Ok true /\
  ship.IsOffline scenario.prodRepo = Ok false /\
  exists d info,
    Some sample.driver = Some d /\
    ship.LoadPullRequestInfo d "feature" "main" = Ok info /\
    ship.CanMergeWithAPI info = true /\
    7%Z = ship.PullRequestNumber info /\
    "feature (#7)" = ship.DefaultCommitMessage info.
Proof.
  exact (shipping_with_driver_needs_origin_and_network scenario.shipCollaborators []
           (Some sample.driver) scenario.prodRepo scenario.prodRepo sample.driverConfig
           eq_refl eq_refl).
Defined.

Lemma ship_refuses_open_changes_on_current_branch_witness :
  ship.determineShipConfig scenario.shipCollaborators ["feature"] None sample.dirtyRepo
  = ship.Returns (Failed UncommittedChanges).
Proof.
  exact (ship_refuses_open_changes_on_current_branch scenario.shipCollaborators ["feature"]
           None sample.dirtyRepo "feature" eq_refl eq_refl eq_refl).
Defined.

Lemma ship_refuses_unknown_branch_witness :
  ship.determineShipConfig scenario.shipCollaborators ["gone"] None sample.dirtyRepo
  = ship.Returns (Failed (NoBranchNamed "gone")).
Proof.
  apply (ship_refuses_unknown_branch scenario.shipCollaborators "gone" [] None
           sample.dirtyRepo "feature" true false eq_refl).
  - discriminate.
  - reflexivity.
  - reflexivity.
  - reflexivity.
  - reflexivity.
Defined.

Lemma ship_executes_only_a_complete_plan_witness :
  exists driver config repo' stepList,
    ship.hosting_NewDriver scenario.shipCollaborators scenario.prodRepo = Ok driver /\
    ship.determineShipConfig scenario.shipCollaborators [] driver scenario.prodRepo
    = ship.Returns (Ok (config, repo')) /\
    ship.shipStepList scenario.shipCollaborators config "done" repo' = (stepList, None) /\
    ship.New "ship"
      ([ship.OtherStep "sync" ["main"]; ship.OtherStep "sync" ["feature"]]
       ++ ship.shipOwnSteps scenario.shipConfig "done")
    = {| ship.Command := "ship"; ship.RunStepList := stepList |} /\
    ship.ending (ship.shipCmdRun scenario.shipCollaborators [] "done" scenario.prodRepo)
    = match ship.runstate_Execute scenario.shipCollaborators
              (ship.New "ship"
                 ([ship.OtherStep "sync" ["main"]; ship.OtherStep "sync" ["feature"]]
                  ++ ship.shipOwnSteps scenario.shipConfig "done")) repo' driver with
      | Some err => ship.Exits err
      | None => ship.Returns tt
      end.
Proof.
  exact (ship_executes_only_a_complete_plan scenario.shipCollaborators [] "done"
           scenario.prodRepo
           (ship.New "ship"
              ([ship.OtherStep "sync" ["main"]; ship.OtherStep "sync" ["feature"]]
               ++ ship.shipOwnSteps scenario.shipConfig "done"))
           eq_refl).
Defined.

Lemma ship_with_driver_pushes_merges_pulls_witness :
  (exists rest,
      ship.shipOwnSteps sample.driverConfig "done"
      = [ ship.EnsureHasShippableChangesStep "feature";
          ship.CheckoutBranchStep "main";
          ship.PushBranchStep "feature" false;
          ship.DriverMergePullRequestStep "feature" 7 "done" "feature (#7)";
          ship.PullBranchStep ] ++ rest) /\
  forallb (fun step => negb (isSquashMerge step)) (ship.shipOwnSteps sample.driverConfig "done")
  = true.
Proof.
  exact (ship_with_driver_pushes_merges_pulls sample.driverConfig "done" eq_refl).
Defined.

Lemma ignored_paths_are_closed_under_extension_witness :
  structs_sorted.isIgnoredPath "vendor/lib/lib.go" = true /\
  structs_sorted.isIgnoredPath ("vendor/lib/lib.go" ++ ".orig")%string = true.
Proof.
  split; [ reflexivity | ].
  exact (proj1 ignored_paths_are_closed_under_extension "vendor/lib/lib.go" ".orig" eq_refl).
Defined.

Lemma linter_exit_code_counts_issues_witness :
  structs_sorted.code
    (structs_sorted.main sample.ParseFile sample.lintStructDefinition
       sample.lintStructLiteral sample.tree) = 2 /\
  structs_sorted.printed
    (structs_sorted.main sample.ParseFile sample.lintStructDefinition
       sample.lintStructLiteral sample.tree)
  = [structs_sorted.PrintedIssues
       [ "unsorted fields in definition of shipConfig";
         "unsorted fields in literal of shipConfig" ]].
Proof.
  assert (Forall (fun entry => structs_sorted.walkErr entry = None) sample.tree) as Hclean.
  { repeat constructor. }
  destruct (linter_exit_code_counts_issues sample.ParseFile sample.lintStructDefinition
              sample.lintStructLiteral sample.tree Hclean) as (Hcode & Hprinted & _).
  split; [ exact Hcode | exact Hprinted ].
Defined.

Lemma linter_stops_at_first_walk_error_witness :
  structs_sorted.main sample.ParseFile sample.lintStructDefinition sample.lintStructLiteral
    (sample.tree ++ sample.unreadable "tools" :: [sample.file "tools/x.go" "x.go"])
  = {| structs_sorted.printed := [structs_sorted.PrintedError (ExternalError "permission denied")];
       structs_sorted.code := 1 |}.
Proof.
  assert (Forall (fun entry => structs_sorted.walkErr entry = None) sample.tree) as Hclean.
  { repeat constructor. }
  exact (linter_stops_at_first_walk_error sample.ParseFile sample.lintStructDefinition
           sample.lintStructLiteral sample.tree [sample.file "tools/x.go" "x.go"]
           (sample.unreadable "tools") (ExternalError "permission denied") Hclean eq_refl).
Defined.

(** ** The append plan for a lineage of any depth *)

(** X24.  For every config that [determineAppendConfig] returns without
    error, whatever the depth of the lineage, and with a branch-sync planner
    that only appends: the plan is the sync sub-sequences of the branches to
    sync, in their order, then create-branch, set-parent and checkout of the
    target with the parent candidates, then create-tracking-branch exactly
    when the remotes hold an origin, new branches are pushed and the run is
    online; the branches synced are the parent candidates read backwards;
    and the program returned is that plan passed through [cmdhelpers.Wrap],
    which is asked to stash exactly when the config records open
    changes. *)
Theorem append_plan_for_any_lineage (ext : Collaborators)
    (targetBranch : gitdomain.LocalBranchName) (repo : execute.OpenRepoResult)
    (dryRun verbose : bool) (w : World) (config : cmd.appendConfig)
    (snap : gitdomain.BranchesStatus) (stash : gitdomain.StashSize) :
  value (cmd.determineAppendConfig ext targetBranch repo dryRun verbose w)
  = (Some config, snap, stash, false, None) ->
  cmd.BranchProgram_appends ext ->
  let candidates := cmd.newBranchParentCandidates config in
  let plan :=
    concat (map (cmd.syncOf ext config) (cmd.branchesToSync config))
    ++ [ opcode.CreateBranchExistingParent candidates targetBranch;
         opcode.SetExistingParent targetBranch candidates;
         opcode.Checkout targetBranch ]
    ++ (if gitdomain.HasOrigin (cmd.remotes config)
           && configdomain.NewBranchPush (cmd.FullConfig config)
           && negb (configdomain.Offline (cmd.FullConfig config))
        then [opcode.OfCreateTrackingBranch {| opcode.Branch := targetBranch |}]
        else []) in
  map gitdomain.LocalName (cmd.branchesToSync config) = rev candidates /\
  cmd.appendProgram ext config
  = cmdhelpers_Wrap ext plan
      {| cmdhelpers.DryRun := dryRun;
         cmdhelpers.RunInGitRoot := true;
         cmdhelpers.StashOpenChanges := cmd.hasOpenChanges config;
         cmdhelpers.PreviousBranchCandidates :=
           [cmd.parentBranch config; cmd.previousBranch config] |}.
Proof.
  intros Hconfig Happends candidates plan.
  destruct (returned_append_config_facts ext targetBranch repo dryRun verbose w
              config snap stash Hconfig)
    as (Htarget & _ & _ & Hnames & Hparent & _ & Hdry).
  split; [ exact Hnames | ].
  unfold cmd.appendProgram, cmd.appendWrapOptions. subst plan candidates.
  rewrite appendProgramBeforeWrap_sequence by assumption.
  rewrite Htarget, <- Hparent, Hdry. reflexivity.
Qed.

Lemma append_plan_for_any_lineage_witness :
  map gitdomain.LocalName [scenario.main; scenario.feature] = rev ["feature"; "main"] /\
  cmd.appendProgram scenario.ext (scenario.appendConfig scenario.dirty)
  = scenario.Wrap scenario.plannedAppend
      {| cmdhelpers.DryRun := false;
         cmdhelpers.RunInGitRoot := true;
         cmdhelpers.StashOpenChanges := true;
         cmdhelpers.PreviousBranchCandidates := ["feature"; "main"] |}.
Proof.
  exact (append_plan_for_any_lineage scenario.ext "feature-2" scenario.repo false false
           (scenario.appendWorld scenario.dirty) (scenario.appendConfig scenario.dirty)
           scenario.snapshot 0 eq_refl scenario_BranchProgram_appends).
Defined.
